(** * Stookwijzer: a shallow embedding of [app/stookwijzer/stookwijzerapi.py]

    The development has these parts.

    - [Py], [Float], [Json]: the part of the Python runtime the class
      relies on: exceptions, binary64 floats ([float()], [round(x, 1)],
      [format(x, ".6f")], [repr]), the values [json.loads] returns, their
      subscripting and their [str]/[repr].
    - [Datetime]: [datetime.strptime] for the format the class uses,
      [astimezone], [+ timedelta(hours=..)] and [isoformat].
    - [Api]: the class [Stookwijzer], method by method.
    - [Samples], [Spec]: instances to evaluate the class on, and the
      vocabulary of the statements.
    - The properties, claim by claim.

    A Python [str] is a Rocq [string] read as a sequence of code points
    below 256; a Python [float] is a [spec_float] at precision 53 and
    maximal exponent 1024 (binary64).  What the class gets from outside --
    the responses of the feature service, the clock, the time zone data --
    is passed in: [_session], [now], [tzenv]. *)

From Stdlib Require Import ZArith List String Ascii Bool Lia.
From Stdlib Require Import DecimalString DecimalZ.
From Stdlib Require Import Sorting.Sorted.
From Stdlib Require Import Floats.SpecFloat.
Import ListNotations.

Local Open Scope string_scope.
Local Open Scope Z_scope.

(* ================================================================== *)
(** * The Python runtime *)
(* ================================================================== *)

Module Py.

(** ** Exceptions and the error monad *)

Inductive exn : Set :=
| KeyError
| IndexError
| TypeError
| ValueError
| OverflowError.

Inductive result (A : Type) : Type :=
| Ok (a : A)
| Raise (e : exn).

Arguments Ok {A} a.
Arguments Raise {A} e.

Definition bind {A B : Type} (c : result A) (k : A -> result B) : result B :=
  match c with
  | Ok a => k a
  | Raise e => Raise e
  end.

Definition exn_eqb (a b : exn) : bool :=
  match a, b with
  | KeyError, KeyError | IndexError, IndexError | TypeError, TypeError
  | ValueError, ValueError | OverflowError, OverflowError => true
  | _, _ => false
  end.

(** [try: c  except (e1, e2, ..): h] *)
Definition try_except {A : Type} (c : result A) (caught : list exn) (h : result A)
  : result A :=
  match c with
  | Ok a => Ok a
  | Raise e => if existsb (exn_eqb e) caught then h else Raise e
  end.

(** The loop [for x in xs: acc.append(f x)]: the first exception ends it. *)
Fixpoint for_append {A B : Type} (f : A -> result B) (xs : list A) : result (list B) :=
  match xs with
  | [] => Ok []
  | x :: xs' =>
      bind (f x) (fun y => bind (for_append f xs') (fun ys => Ok (y :: ys)))
  end.

(** [range(start, stop, step)] for a positive step. *)
Definition range (start stop step : Z) : list Z :=
  map (fun i => start + Z.of_nat i * step)
      (seq 0 (Z.to_nat ((stop - start + step - 1) / step))).

(** ** Characters and decimal numerals *)

Definition code (c : ascii) : Z := Z.of_N (N_of_ascii c).
Definition chr (n : Z) : ascii := ascii_of_N (Z.to_N n).

Definition in_range (lo hi : Z) (c : ascii) : bool :=
  (lo <=? code c) && (code c <=? hi).

Definition is_digit (c : ascii) : bool := in_range 48 57 c.
Definition digit_val (c : ascii) : Z := code c - 48.
Definition digit_char (d : Z) : ascii := chr (48 + d).

(** [Py_ISSPACE]: blank, tab, line feed, vertical tab, form feed, return. *)
Definition is_c_space (c : ascii) : bool :=
  (code c =? 32) || in_range 9 13 c.

(** [str.isspace] on one code point below 256. *)
Definition is_unicode_space (c : ascii) : bool :=
  is_c_space c || in_range 28 31 c || (code c =? 133) || (code c =? 160).

Definition lower (c : ascii) : ascii :=
  if in_range 65 90 c then chr (code c + 32) else c.

(** [str(n)] for an [int]. *)
Definition str_int (n : Z) : string := NilZero.string_of_int (Z.to_int n).

(** The [w] low decimal digits of [n], most significant first: ["%0wd" % n]
    for [0 <= n < 10^w]. *)
Fixpoint fixed_digits (w : nat) (n : Z) : string :=
  match w with
  | O => ""
  | S w' => fixed_digits w' (n / 10) ++ String (digit_char (n mod 10)) ""
  end.

Fixpoint span_digits (s : string) : list Z * string :=
  match s with
  | String c r =>
      if is_digit c
      then let '(ds, r') := span_digits r in (digit_val c :: ds, r')
      else ([], s)
  | EmptyString => ([], s)
  end.

Definition digits_value (ds : list Z) : Z :=
  fold_left (fun a d => 10 * a + d) ds 0.

Fixpoint join (sep : string) (l : list string) : string :=
  match l with
  | [] => ""
  | [x] => x
  | x :: l' => x ++ sep ++ join sep l'
  end.

Fixpoint contains_char (c : ascii) (s : string) : bool :=
  match s with
  | EmptyString => false
  | String d r => Ascii.eqb c d || contains_char c r
  end.

Fixpoint string_rev_onto (s acc : string) : string :=
  match s with
  | EmptyString => acc
  | String c r => string_rev_onto r (String c acc)
  end.

Definition string_rev (s : string) : string := string_rev_onto s "".

Fixpoint lstrip (p : ascii -> bool) (s : string) : string :=
  match s with
  | String c r => if p c then lstrip p r else s
  | EmptyString => s
  end.

Definition strip (p : ascii -> bool) (s : string) : string :=
  string_rev (lstrip p (string_rev (lstrip p s))).

(** Truth value of a [str]: non-empty. *)
Definition truthy (s : string) : bool :=
  match s with
  | EmptyString => false
  | String _ _ => true
  end.

End Py.

Notation "x <- c ;; k" := (Py.bind c (fun x => k))
  (at level 61, c at next level, right associativity).

(* ================================================================== *)
(** * Binary64 floating point: Python's [float] *)
(* ================================================================== *)

Module Float.
Import Py.

Definition prec : Z := 53.
Definition emax : Z := 1024.

Definition float : Set := spec_float.

(** [x + y] *)
Definition add (x y : float) : float := SFadd prec emax x y.

(** The float nearest to [n / d] (ties to even) with sign [s], for
    [0 <= n] and [0 < d]; infinite when the quotient is out of range. *)
Definition of_ratio (s : bool) (n d : Z) : float :=
  let '(q, e, l) := SFdiv_core_binary prec emax n 0 d 0 in
  binary_round_aux prec emax s q e l.

(** The float nearest to [n * 10^k]: what [strtod] returns for the decimal
    numeral with digits [n] and exponent [k]. *)
Definition of_decimal (s : bool) (n k : Z) : float :=
  if 0 <=? k then of_ratio s (n * 10 ^ k) 1 else of_ratio s n (10 ^ (- k)).

(** [float(n)] for an [int]: [OverflowError] past the largest float. *)
Definition of_int (n : Z) : result float :=
  match binary_normalize prec emax n 0 false with
  | S754_infinity _ => Raise OverflowError
  | f => Ok f
  end.

Definition is_finite (f : float) : bool :=
  match f with
  | S754_zero _ | S754_finite _ _ _ => true
  | _ => false
  end.

(** Integer quotient of [n] by [d] rounded to nearest, ties to even. *)
Definition rhe_div (n d : Z) : Z :=
  let q := n / d in
  match 2 * (n mod d) ?= d with
  | Lt => q
  | Gt => q + 1
  | Eq => if Z.even q then q else q + 1
  end.

(** [|m * 2^e| * 10^k] rounded to an integer, ties to even: the digits that
    [dtoa] yields in mode 3 with [k] places after the point. *)
Definition scaled (m : positive) (e : Z) (k : Z) : Z :=
  if 0 <=? e then Zpos m * 2 ^ e * 10 ^ k
  else rhe_div (Zpos m * 10 ^ k) (2 ^ (- e)).

(** [round(x, 1)]: the digits of [x] correctly rounded at one decimal,
    read back as a float. *)
Definition round1 (x : float) : float :=
  match x with
  | S754_finite s m e => of_decimal s (scaled m e 1) (-1)
  | _ => x
  end.

Definition sign_str (s : bool) : string := if s then "-" else "".

(** The constant [10.0] *)
Definition ten : float := S754_finite false 5629499534213120 (-49).

(** [format(x, ".6f")] *)
Definition format_f6 (x : float) : string :=
  match x with
  | S754_nan => "nan"
  | S754_infinity s => sign_str s ++ "inf"
  | S754_zero s => sign_str s ++ "0." ++ fixed_digits 6 0
  | S754_finite s m e =>
      let n := scaled m e 6 in
      sign_str s ++ str_int (n / 10 ^ 6) ++ "." ++ fixed_digits 6 (n mod 10 ^ 6)
  end.

(** *** [float(s)] for a [str] *)

(** Underscores may only stand between two digits; they are dropped. *)
Fixpoint strip_underscores (prev : ascii) (s : string) : option string :=
  match s with
  | EmptyString => if Ascii.eqb prev "_" then None else Some ""
  | String c r =>
      if Ascii.eqb c "_"
      then if is_digit prev then strip_underscores c r else None
      else if Ascii.eqb prev "_" && negb (is_digit c) then None
           else option_map (String c) (strip_underscores c r)
  end.

(** Blanks beyond ASCII are turned into a blank before parsing. *)
Definition space_to_ascii (c : ascii) : ascii :=
  if (code c =? 133) || (code c =? 160) then " "%char else c.

Fixpoint map_string (f : ascii -> ascii) (s : string) : string :=
  match s with
  | EmptyString => ""
  | String c r => String (f c) (map_string f r)
  end.

Definition parse_sign (s : string) : bool * string :=
  match s with
  | String "-" r => (true, r)
  | String "+" r => (false, r)
  | _ => (false, s)
  end.

(** The exponent part [[eE][+-]?digits]; not consumed when malformed. *)
Definition parse_exponent (s : string) : Z * string :=
  match s with
  | String c r =>
      if Ascii.eqb (lower c) "e" then
        let '(neg, r1) := parse_sign r in
        let '(ds, r2) := span_digits r1 in
        match ds with
        | [] => (0, s)
        | _ => ((if neg then - digits_value ds else digits_value ds), r2)
        end
      else (0, s)
  | EmptyString => (0, s)
  end.

(** [strtod]: sign, digits with an optional point, optional exponent. *)
Definition parse_finite (s : string) : option float :=
  let '(neg, r0) := parse_sign s in
  let '(ip, r1) := span_digits r0 in
  let '(fp, r2) :=
    match r1 with
    | String "." r => span_digits r
    | _ => ([], r1)
    end in
  match (ip ++ fp)%list with
  | [] => None
  | ds =>
      let '(ex, r3) := parse_exponent r2 in
      match r3 with
      | EmptyString =>
          Some (of_decimal neg (digits_value ds) (ex - Z.of_nat (List.length fp)))
      | _ => None
      end
  end.

(** [inf], [infinity] and [nan] in any letter case, with an optional sign. *)
Definition parse_inf_nan (s : string) : option float :=
  let '(neg, r) := parse_sign s in
  let w := map_string lower r in
  if String.eqb w "inf" || String.eqb w "infinity" then Some (S754_infinity neg)
  else if String.eqb w "nan" then Some S754_nan
  else None.

Definition of_string (s : string) : result float :=
  match strip_underscores "000" (map_string space_to_ascii s) with
  | None => Raise ValueError
  | Some t =>
      let u := strip is_c_space t in
      match parse_finite u with
      | Some f => Ok f
      | None =>
          match parse_inf_nan u with
          | Some f => Ok f
          | None => Raise ValueError
          end
      end
  end.

(** *** [repr(x)]: the shortest numeral that reads back as [x] *)

Definition eqb (x y : float) : bool :=
  match x, y with
  | S754_nan, S754_nan => true
  | S754_zero s, S754_zero t => Bool.eqb s t
  | S754_infinity s, S754_infinity t => Bool.eqb s t
  | S754_finite s m e, S754_finite t n f =>
      Bool.eqb s t && Pos.eqb m n && Z.eqb e f
  | _, _ => false
  end.

(** [10^k <= n / d] *)
Definition pow10_le (k n d : Z) : bool :=
  if 0 <=? k then 10 ^ k * d <=? n else d <=? n * 10 ^ (- k).

Fixpoint ilog10_from (fuel : nat) (k n d : Z) : Z :=
  match fuel with
  | O => k
  | S fuel' => if pow10_le (k + 1) n d then ilog10_from fuel' (k + 1) n d else k
  end.

(** The largest [k] with [10^k <= n / d], for a positive float [n / d]. *)
Definition ilog10 (n d : Z) : Z :=
  ilog10_from 8 ((Z.log2 n - Z.log2 d - 1) * 30103 / 100000 - 1) n d.

(** The [nd]-digit numerals next to [n / d], below and above, as
    [digits * 10^k], and whether the one below is to be preferred: it is
    nearer, or as near and even. *)
Definition neighbours (nd : Z) (n d : Z) : Z * Z * bool :=
  let k := ilog10 n d - (nd - 1) in
  let num := if 0 <=? k then n else n * 10 ^ (- k) in
  let den := if 0 <=? k then d * 10 ^ k else d in
  let lo := num / den in
  (lo, k,
   match 2 * (num mod den) ?= den with
   | Lt => true
   | Eq => Z.even lo
   | Gt => false
   end).

Fixpoint shortest_from (fuel : nat) (nd : Z) (x : float) (n d : Z) : Z * Z :=
  let '(lo, k, lo_nearer) := neighbours nd n d in
  let lo_ok := eqb (of_decimal false lo k) x in
  let hi_ok := eqb (of_decimal false (lo + 1) k) x in
  match fuel with
  | O => (lo, k)
  | S fuel' =>
      if lo_ok && (lo_nearer || negb hi_ok) then (lo, k)
      else if hi_ok then (lo + 1, k)
      else shortest_from fuel' (nd + 1) x n d
  end.

Fixpoint strip_zeros (fuel : nat) (c k : Z) : Z * Z :=
  match fuel with
  | O => (c, k)
  | S fuel' =>
      if (c mod 10 =? 0) && negb (c =? 0) then strip_zeros fuel' (c / 10) (k + 1)
      else (c, k)
  end.

Fixpoint zeros (n : nat) : string :=
  match n with
  | O => ""
  | S n' => String "0" (zeros n')
  end.

(** Layout of the digits [ds] with the point after [decpt] of them. *)
Definition layout (ds : string) (decpt : Z) : string :=
  let len := Z.of_nat (String.length ds) in
  if (decpt <=? -4) || (16 <? decpt) then
    let e := decpt - 1 in
    substring 0 1 ds
    ++ (if 1 <? len then "." ++ substring 1 (String.length ds - 1) ds else "")
    ++ "e" ++ (if e <? 0 then "-" else "+")
    ++ (if Z.abs e <? 10 then "0" else "") ++ str_int (Z.abs e)
  else if decpt <=? 0 then
    "0." ++ zeros (Z.to_nat (- decpt)) ++ ds
  else if len <=? decpt then
    ds ++ zeros (Z.to_nat (decpt - len)) ++ ".0"
  else
    substring 0 (Z.to_nat decpt) ds ++ "."
    ++ substring (Z.to_nat decpt) (String.length ds - Z.to_nat decpt) ds.

Definition repr (x : float) : string :=
  match x with
  | S754_nan => "nan"
  | S754_infinity s => sign_str s ++ "inf"
  | S754_zero s => sign_str s ++ "0.0"
  | S754_finite s m e =>
      let a := S754_finite false m e in
      let n := if 0 <=? e then Zpos m * 2 ^ e else Zpos m in
      let d := if 0 <=? e then 1 else 2 ^ (- e) in
      let '(c0, k0) := shortest_from 17 1 a n d in
      let '(c, k) := strip_zeros 17 c0 k0 in
      let ds := str_int c in
      sign_str s ++ layout ds (Z.of_nat (String.length ds) + k)
  end.

End Float.

(* ================================================================== *)
(** * JSON-decodable Python values *)
(* ================================================================== *)

Module Json.
Import Py.

(** What [json.loads] can return: [None], [bool], [int], [float], [str],
    [list] and [dict] with [str] keys.  A [dict] keeps its items in
    insertion order; the first binding of a key is the one looked up. *)
#[local] Unset Elimination Schemes.

Inductive value : Type :=
| VNone
| VBool (b : bool)
| VInt (n : Z)
| VFloat (f : Float.float)
| VStr (s : string)
| VList (l : list value)
| VDict (d : list (string * value)).

#[local] Set Elimination Schemes.

Definition dict : Type := list (string * value).

(** A subscript: a [str] or an [int]. *)
Inductive key : Set :=
| KStr (s : string)
| KInt (i : Z).

Fixpoint dict_get (k : string) (d : list (string * value)) : option value :=
  match d with
  | [] => None
  | (k', v) :: d' => if String.eqb k k' then Some v else dict_get k d'
  end.

(** [d[k] = v] on a [dict]: in place when [k] is bound, else appended. *)
Fixpoint dict_set (k : string) (v : value) (d : list (string * value))
  : list (string * value) :=
  match d with
  | [] => [(k, v)]
  | (k', v') :: d' =>
      if String.eqb k k' then (k', v) :: d' else (k', v') :: dict_set k v d'
  end.

(** [d.update(e)] *)
Definition dict_update (d e : list (string * value)) : list (string * value) :=
  fold_left (fun acc kv => dict_set (fst kv) (snd kv) acc) e d.

(** [seq[i]] with Python's negative indices. *)
Definition index {A : Type} (l : list A) (i : Z) : result A :=
  let n := Z.of_nat (List.length l) in
  let j := if i <? 0 then i + n else i in
  if (0 <=? j) && (j <? n)
  then match nth_error l (Z.to_nat j) with
       | Some a => Ok a
       | None => Raise IndexError
       end
  else Raise IndexError.

(** [v[k]] *)
Definition getitem (v : value) (k : key) : result value :=
  match v, k with
  | VDict d, KStr s =>
      match dict_get s d with
      | Some x => Ok x
      | None => Raise KeyError
      end
  | VDict _, KInt _ => Raise KeyError
  | VList l, KInt i => index l i
  | VList _, KStr _ => Raise TypeError
  | VStr s, KInt i =>
      c <- index (list_ascii_of_string s) i ;; Ok (VStr (String c ""))
  | VStr _, KStr _ => Raise TypeError
  | _, _ => Raise TypeError
  end.

(** *** [repr] and [str] *)

Definition hex_digit (n : Z) : ascii :=
  if n <? 10 then chr (48 + n) else chr (87 + n).

Definition dquote : ascii := chr 34.

(** [str.isprintable] on one code point below 256. *)
Definition is_printable (c : ascii) : bool :=
  in_range 32 126 c || (in_range 161 255 c && negb (code c =? 173)).

Definition escape_char (quote c : ascii) : string :=
  if Ascii.eqb c quote || Ascii.eqb c "\" then String "\" (String c "")
  else if code c =? 9 then "\t"
  else if code c =? 10 then "\n"
  else if code c =? 13 then "\r"
  else if is_printable c then String c ""
  else String "\" (String "x" (String (hex_digit (code c / 16))
                                 (String (hex_digit (code c mod 16)) ""))).

Fixpoint escape (quote : ascii) (s : string) : string :=
  match s with
  | EmptyString => ""
  | String c r => escape_char quote c ++ escape quote r
  end.

(** [repr(s)] for a [str]: single quotes unless [s] has one and no
    double quote. *)
Definition repr_str (s : string) : string :=
  let quote : ascii :=
    if contains_char "'" s && negb (contains_char dquote s) then dquote
    else "'"%char in
  String quote (escape quote s) ++ String quote "".

Fixpoint repr (v : value) : string :=
  match v with
  | VNone => "None"
  | VBool true => "True"
  | VBool false => "False"
  | VInt n => str_int n
  | VFloat f => Float.repr f
  | VStr s => repr_str s
  | VList l => "[" ++ join ", " (map repr l) ++ "]"
  | VDict d =>
      "{" ++ join ", " (map (fun kv => let '(k, x) := kv in
                                       repr_str k ++ ": " ++ repr x) d) ++ "}"
  end.

(** [str(v)] *)
Definition str (v : value) : string :=
  match v with
  | VStr s => s
  | _ => repr v
  end.

(** [float(v)] *)
Definition to_float (v : value) : result Float.float :=
  match v with
  | VBool b => Float.of_int (if b then 1 else 0)
  | VInt n => Float.of_int n
  | VFloat f => Ok f
  | VStr s => Float.of_string s
  | VNone | VList _ | VDict _ => Raise TypeError
  end.

End Json.

(* ================================================================== *)
(** * [datetime] *)
(* ================================================================== *)

Module Datetime.
Import Py.

(** ** The proleptic Gregorian calendar *)

Definition is_leap (year : Z) : bool :=
  (year mod 4 =? 0) && (negb (year mod 100 =? 0) || (year mod 400 =? 0)).

Definition days_before_year (year : Z) : Z :=
  let y := year - 1 in y * 365 + y / 4 - y / 100 + y / 400.

Definition DAYS_IN_MONTH : list Z :=
  [-1; 31; 28; 31; 30; 31; 30; 31; 31; 30; 31; 30; 31].

Definition DAYS_BEFORE_MONTH : list Z :=
  [-1; 0; 31; 59; 90; 120; 151; 181; 212; 243; 273; 304; 334].

Definition b2z (b : bool) : Z := if b then 1 else 0.

Definition days_in_month (year month : Z) : Z :=
  if (month =? 2) && is_leap year then 29
  else nth (Z.to_nat month) DAYS_IN_MONTH 0.

Definition days_before_month (year month : Z) : Z :=
  nth (Z.to_nat month) DAYS_BEFORE_MONTH 0 + b2z ((2 <? month) && is_leap year).

Definition ymd2ord (year month day : Z) : Z :=
  days_before_year year + days_before_month year month + day.

Definition DI400Y : Z := 146097.
Definition DI100Y : Z := 36524.
Definition DI4Y : Z := 1461.

Definition ord2ymd (ordinal : Z) : Z * Z * Z :=
  let n := ordinal - 1 in
  let n400 := n / DI400Y in
  let n := n mod DI400Y in
  let year := n400 * 400 + 1 in
  let n100 := n / DI100Y in
  let n := n mod DI100Y in
  let n4 := n / DI4Y in
  let n := n mod DI4Y in
  let n1 := n / 365 in
  let n := n mod 365 in
  let year := year + n100 * 100 + n4 * 4 + n1 in
  if (n1 =? 4) || (n100 =? 4) then (year - 1, 12, 31)
  else
    let leapyear := (n1 =? 3) && (negb (n4 =? 24) || (n100 =? 3)) in
    let month := (n + 50) / 32 in
    let preceding :=
      nth (Z.to_nat month) DAYS_BEFORE_MONTH 0 + b2z ((2 <? month) && leapyear) in
    if n <? preceding then
      let month := month - 1 in
      let preceding :=
        preceding
        - (nth (Z.to_nat month) DAYS_IN_MONTH 0 + b2z ((month =? 2) && leapyear)) in
      (year, month, n - preceding + 1)
    else (year, month, n - preceding + 1).

Definition MINYEAR : Z := 1.
Definition MAXYEAR : Z := 9999.
Definition MAXORDINAL : Z := 3652059.

(** ** Values *)

Definition US_PER_SECOND : Z := 1000000.
Definition US_PER_DAY : Z := 86400 * US_PER_SECOND.

(** A [datetime] is held as its place on the wall clock, in microseconds
    since 0001-01-01T00:00:00, with the offset from UTC (in seconds) of its
    [tzinfo], if it has one.  The calendar fields are recovered from [wall]
    by [ord2ymd]. *)
Record datetime : Set := mkdatetime {
  wall : Z;
  utcoffset : option Z
}.

Definition in_bounds (w : Z) : bool :=
  (0 <=? w) && (w <? MAXORDINAL * US_PER_DAY).

(** [datetime(year, month, day, hour, minute)] *)
Definition make (year month day hour minute : Z) : result datetime :=
  if (MINYEAR <=? year) && (year <=? MAXYEAR)
     && (1 <=? month) && (month <=? 12)
     && (1 <=? day) && (day <=? days_in_month year month)
     && (0 <=? hour) && (hour <=? 23) && (0 <=? minute) && (minute <=? 59)
  then Ok (mkdatetime
             ((((ymd2ord year month day - 1) * 24 + hour) * 60 + minute)
              * 60 * US_PER_SECOND)
             None)
  else Raise ValueError.

(** [dt + timedelta(microseconds=us)]: the [tzinfo] is kept. *)
Definition add_microseconds (dt : datetime) (us : Z) : result datetime :=
  let w := wall dt + us in
  if in_bounds w then Ok (mkdatetime w (utcoffset dt)) else Raise OverflowError.

(** [dt + timedelta(hours=h)] *)
Definition add_hours (dt : datetime) (h : Z) : result datetime :=
  add_microseconds dt (h * 3600 * US_PER_SECOND).

(** [a < b] for two datetimes with the same [tzinfo]. *)
Definition lt (a b : datetime) : Prop := wall a < wall b.

(** ** Time zones *)

(** The zone data the class reads: the system's local zone, which
    [astimezone] applies to a naive datetime, and pytz's Europe/Amsterdam.
    Both give the offset from UTC, in seconds, that holds at a UTC time;
    the time is counted in microseconds since 0001-01-01T00:00:00 UTC. *)
Record tzenv : Type := mktzenv {
  local_utcoffset : Z -> Z;      (* [tm_gmtoff] of [localtime] *)
  amsterdam_utcoffset : Z -> Z   (* of the zone's [fromutc] *)
}.

(** How CPython finds the offset of a naive datetime ([local_to_seconds]
    and its callers in [_datetimemodule.c]).  Times are whole seconds
    since 0001-01-01T00:00:00. *)

Definition max_fold_seconds : Z := 24 * 3600.

(** [local(u)]: the fields of [localtime(u)] counted back into seconds by
    [utc_to_seconds], which rejects a year outside 1..9999. *)
Definition local (tz : tzenv) (u : Z) : result Z :=
  let t := u + local_utcoffset tz (u * US_PER_SECOND) in
  if in_bounds (t * US_PER_SECOND) then Ok t else Raise ValueError.

(** [local_to_seconds(..., fold=0)]: solve [t = local(u)] for [u],
    probing the day before for an earlier solution. *)
Definition local_to_seconds (tz : tzenv) (t : Z) : result Z :=
  lt <- local tz t ;;
  let a := lt - t in
  let u1 := t - a in
  t1 <- local tz u1 ;;
  b <- (if t1 =? t then
          let u2 := u1 - max_fold_seconds in
          lt <- local tz u2 ;;
          Ok (lt - u2)
        else Ok (t1 - u1)) ;;
  if (t1 =? t) && (a =? b) then Ok u1
  else
    let u2 := t - b in
    t2 <- local tz u2 ;;
    if t2 =? t then Ok u2
    else if t1 =? t then Ok u1
    else Ok (Z.max u1 u2).

(** [local_timezone_from_local(dt).utcoffset(dt)]: the offset at the time
    found; [timezone] wants it strictly within 24 hours. *)
Definition local_timezone (tz : tzenv) (dt : datetime) : result Z :=
  timestamp <- local_to_seconds tz (wall dt / US_PER_SECOND) ;;
  let offset := local_utcoffset tz (timestamp * US_PER_SECOND) in
  if (- 86400 <? offset) && (offset <? 86400) then Ok offset
  else Raise ValueError.

(** [dt.astimezone(pytz.timezone("Europe/Amsterdam"))]: [dt] less its
    offset is the UTC time, to which the zone's [fromutc] adds its own. *)
Definition astimezone_amsterdam (tz : tzenv) (dt : datetime) : result datetime :=
  offset <- match utcoffset dt with
            | Some o => Ok o
            | None => local_timezone tz dt
            end ;;
  utc <- add_microseconds dt (- offset * US_PER_SECOND) ;;
  let o := amsterdam_utcoffset tz (wall utc) in
  local <- add_microseconds utc (o * US_PER_SECOND) ;;
  Ok (mkdatetime (wall local) (Some o)).

(** ** [isoformat] *)

Definition format_offset (off : option Z) : string :=
  match off with
  | None => ""
  | Some o =>
      let a := Z.abs o in
      (if o <? 0 then "-" else "+")
      ++ fixed_digits 2 (a / 3600) ++ ":" ++ fixed_digits 2 (a mod 3600 / 60)
      ++ (if a mod 60 =? 0 then "" else ":" ++ fixed_digits 2 (a mod 60))
  end.

Definition isoformat (dt : datetime) : string :=
  let days := wall dt / US_PER_DAY in
  let rest := wall dt mod US_PER_DAY in
  let '(y, m, d) := ord2ymd (days + 1) in
  let secs := rest / US_PER_SECOND in
  let us := rest mod US_PER_SECOND in
  fixed_digits 4 y ++ "-" ++ fixed_digits 2 m ++ "-" ++ fixed_digits 2 d
  ++ "T" ++ fixed_digits 2 (secs / 3600) ++ ":" ++ fixed_digits 2 (secs mod 3600 / 60)
  ++ ":" ++ fixed_digits 2 (secs mod 60)
  ++ (if us =? 0 then "" else "." ++ fixed_digits 6 us)
  ++ format_offset (utcoffset dt).

(** ** [strptime] *)

(** The regular expressions [_strptime] builds, matched as [re.match]
    does: alternatives in order, backtracking on failure. *)
Inductive re : Type :=
| Lit (c : ascii)
| Class (p : ascii -> bool)
| Plus (p : ascii -> bool)
| Cat (r1 r2 : re)
| Alt (r1 r2 : re)
| Group (name : string) (r : re).

Definition groups : Type := list (string * string).

(** Zero or more characters of a class, longest first. *)
Fixpoint match_star {A : Type} (p : ascii -> bool) (s : string)
  (k : string -> option A) : option A :=
  match s with
  | String c r =>
      if p c
      then match match_star p r k with
           | Some a => Some a
           | None => k s
           end
      else k s
  | EmptyString => k s
  end.

Fixpoint rmatch {A : Type} (r : re) (s : string) (g : groups)
  (k : string -> groups -> option A) : option A :=
  match r with
  | Lit c =>
      match s with
      | String d s' => if Ascii.eqb c d then k s' g else None
      | EmptyString => None
      end
  | Class p =>
      match s with
      | String d s' => if p d then k s' g else None
      | EmptyString => None
      end
  | Plus p =>
      match s with
      | String d s' => if p d then match_star p s' (fun t => k t g) else None
      | EmptyString => None
      end
  | Cat r1 r2 => rmatch r1 s g (fun s' g' => rmatch r2 s' g' k)
  | Alt r1 r2 =>
      match rmatch r1 s g k with
      | Some a => Some a
      | None => rmatch r2 s g k
      end
  | Group name r1 =>
      rmatch r1 s g (fun s' g' =>
        k s' ((name, substring 0 (String.length s - String.length s') s) :: g'))
  end.

Definition digit : re := Class is_digit.
Definition cls (lo hi : ascii) : re := Class (in_range (code lo) (code hi)).

(** [%d]: [3[0-1]|[1-2]\d|0[1-9]|[1-9]| [1-9]] *)
Definition re_d : re :=
  Alt (Cat (Lit "3") (cls "0" "1"))
 (Alt (Cat (cls "1" "2") digit)
 (Alt (Cat (Lit "0") (cls "1" "9"))
 (Alt (cls "1" "9")
      (Cat (Lit " ") (cls "1" "9"))))).

(** [%m]: [1[0-2]|0[1-9]|[1-9]] *)
Definition re_m : re :=
  Alt (Cat (Lit "1") (cls "0" "2"))
 (Alt (Cat (Lit "0") (cls "1" "9"))
      (cls "1" "9")).

(** [%Y]: [\d\d\d\d] *)
Definition re_Y : re := Cat digit (Cat digit (Cat digit digit)).

(** [%H]: [2[0-3]|[0-1]\d|\d] *)
Definition re_H : re :=
  Alt (Cat (Lit "2") (cls "0" "3"))
 (Alt (Cat (cls "0" "1") digit)
      digit).

(** [%M]: [[0-5]\d|\d] *)
Definition re_M : re :=
  Alt (Cat (cls "0" "5") digit) digit.

(** The pattern of the format ["%d-%m-%Y %H:%M"]; the blank of the format
    stands for [\s+]. *)
Definition re_format : re :=
  Cat (Group "d" re_d) (Cat (Lit "-")
 (Cat (Group "m" re_m) (Cat (Lit "-")
 (Cat (Group "Y" re_Y) (Cat (Plus is_unicode_space)
 (Cat (Group "H" re_H) (Cat (Lit ":")
      (Group "M" re_M)))))))).

Fixpoint group (name : string) (g : groups) : string :=
  match g with
  | [] => ""
  | (n, t) :: g' => if String.eqb name n then t else group name g'
  end.

(** [int(s)] for a run of digits, after leading blanks. *)
Definition int_of (s : string) : Z :=
  digits_value (fst (span_digits (lstrip is_unicode_space s))).

(** [datetime.strptime(s, "%d-%m-%Y %H:%M")] *)
Definition strptime (s : string) : result datetime :=
  match rmatch re_format s [] (fun rest g => Some (rest, g)) with
  | Some (EmptyString, g) =>
      make (int_of (group "Y" g)) (int_of (group "m" g)) (int_of (group "d" g))
           (int_of (group "H" g)) (int_of (group "M" g))
  | _ => Raise ValueError
  end.

End Datetime.

(* ================================================================== *)
(** * The class [Stookwijzer] *)
(* ================================================================== *)

Module Api.
Import Py Json Datetime.

(** The attributes of an instance.  [_session] stands for the aiohttp
    session: for a URL, the body of the response decoded by [json.loads],
    or [None] when the request, the read or the decoding raised. *)
Record Stookwijzer : Type := mkStookwijzer {
  _boundary_box : option string;
  _advice : option string;
  _alert : option bool;
  _last_updated : option datetime;
  _stookwijzer : value;
  _session : string -> option value
}.

Definition get_color (advice : string) : string :=
  if String.eqb advice "0" then "code_yellow"
  else if String.eqb advice "1" then "code_orange"
  else if String.eqb advice "2" then "code_red"
  else "".

(** [self._stookwijzer["features"][0]["properties"][prop]] *)
Definition lookup (self : Stookwijzer) (prop : string) : result value :=
  features <- getitem (_stookwijzer self) (KStr "features") ;;
  feature <- getitem features (KInt 0) ;;
  properties <- getitem feature (KStr "properties") ;;
  getitem properties (KStr prop).

(** The handler also writes to the log, which is not part of the state. *)
Definition get_property (self : Stookwijzer) (prop : string) : result string :=
  try_except
    (v <- lookup self prop ;; Ok (str v))
    [KeyError; IndexError; TypeError]
    (Ok "").

(** A method that reads nothing of [self]. *)
Definition get_boundary_box (x y : value) : result (option string) :=
  try_except
    (x0 <- to_float x ;;
     y0 <- to_float y ;;
     x1 <- to_float x ;;
     y1 <- to_float y ;;
     Ok (Some (Float.format_f6 x0 ++ "%2C" ++ Float.format_f6 y0 ++ "%2C"
               ++ Float.format_f6 (Float.add x1 Float.ten) ++ "%2C"
               ++ Float.format_f6 (Float.add y1 Float.ten))))
    [ValueError; TypeError]
    (Ok None).

Definition __init__ (session : string -> option value) (x y : value)
  : result Stookwijzer :=
  boundary_box <- get_boundary_box x y ;;
  Ok (mkStookwijzer boundary_box None None None VNone session).

Definition url (boundary_box : string) : string :=
  "https://data.rivm.nl/geo/alo/wms"
  ++ "?service=WMS"
  ++ "&VERSION=1.3.0"
  ++ "&REQUEST=GetFeatureInfo"
  ++ "&FORMAT=application%2Fjson"
  ++ "&QUERY_LAYERS=stookwijzer"
  ++ "&LAYERS=stookwijzer"
  ++ "&servicekey=82b124ad-834d-4c10-8bd0-ee730d5c1cc8"
  ++ "&STYLES="
  ++ "&BUFFER=1"
  ++ "&info_format=application%2Fjson"
  ++ "&feature_count=1"
  ++ "&I=1&J=1"
  ++ "&WIDTH=1&HEIGHT=1"
  ++ "&CRS=EPSG%3A28992"
  ++ "&BBOX=" ++ boundary_box.

Definition async_get_stookwijzer (self : Stookwijzer) : value :=
  match _boundary_box self with
  | None => VNone
  | Some boundary_box =>
      if truthy boundary_box then
        match _session self (url boundary_box) with
        | Some payload => payload
        | None => VNone
        end
      else VNone
  end.

Definition set_stookwijzer (self : Stookwijzer) (payload : value) : Stookwijzer :=
  mkStookwijzer (_boundary_box self) (_advice self) (_alert self)
                (_last_updated self) payload (_session self).

Definition set_current (self : Stookwijzer) (advice : string) (alert : bool)
  (last_updated : datetime) : Stookwijzer :=
  mkStookwijzer (_boundary_box self) (Some advice) (Some alert)
                (Some last_updated) (_stookwijzer self) (_session self).

(** [now] is what [datetime.now()] returns when it is called. *)
Definition async_update (now : datetime) (self : Stookwijzer) : result Stookwijzer :=
  let self := set_stookwijzer self (async_get_stookwijzer self) in
  advice <- get_property self "advies_0" ;;
  if truthy advice then
    alert_0 <- get_property self "alert_0" ;;
    Ok (set_current self (get_color advice) (String.eqb alert_0 "1") now)
  else Ok self.

Definition get_forecast_at_offset (self : Stookwijzer) (runtime : datetime)
  (offset : Z) (advice : bool) : result dict :=
  t <- add_hours runtime offset ;;
  let dt : dict := [("datetime", VStr (isoformat t))] in
  forecast <-
    (if advice
     then p <- get_property self ("advies_" ++ str_int offset) ;;
          Ok [("advice", VStr (get_color p))]
     else p <- get_property self ("alert_" ++ str_int offset) ;;
          Ok [("alert", VBool (String.eqb p "1"))]) ;;
  Ok (dict_update dt forecast).

Definition get_forecast_array (tz : tzenv) (self : Stookwijzer) (advice : bool)
  : result (option (list dict)) :=
  runtime <- get_property self "model_runtime" ;;
  if negb (truthy runtime) then Ok None
  else
    dt <- strptime runtime ;;
    localdt <- astimezone_amsterdam tz dt ;;
    forecast <- for_append
                  (fun offset => get_forecast_at_offset self localdt offset advice)
                  (range 2 25 2) ;;
    Ok (Some forecast).

(** *** Properties *)

Definition advice (self : Stookwijzer) : option string := _advice self.

Definition alert (self : Stookwijzer) : option bool := _alert self.

Definition windspeed_bft (self : Stookwijzer) : result value :=
  p <- get_property self "wind_bft" ;; Ok (VStr p).

Definition windspeed_ms (self : Stookwijzer) : result value :=
  windspeed <- get_property self "wind" ;;
  if truthy windspeed
  then f <- Float.of_string windspeed ;; Ok (VFloat (Float.round1 f))
  else Ok (VStr windspeed).

Definition lki (self : Stookwijzer) : result value :=
  p <- get_property self "lki" ;; Ok (VStr p).

Definition forecast_advice (tz : tzenv) (self : Stookwijzer)
  : result (option (list dict)) :=
  get_forecast_array tz self true.

Definition forecast_alert (tz : tzenv) (self : Stookwijzer)
  : result (option (list dict)) :=
  get_forecast_array tz self false.

Definition last_updated (self : Stookwijzer) : option datetime :=
  _last_updated self.

(** *** The coordinate transformation *)

(** The exceptions that [except Exception] catches: all of them. *)
Definition Exception : list exn :=
  [KeyError; IndexError; TypeError; ValueError; OverflowError].

(** The f-string of the request: the longitude goes out as [x], the
    latitude as [y]. *)
Definition transform_url (latitude longitude : value) : string :=
  "https://epsg.io/trans?x=" ++ str longitude ++ "&y=" ++ str latitude
  ++ "&s_srs=4326&t_srs=28992".

(** A static method.  When the request, the read or [json.loads] raises,
    the handler answers at once; so it does for what the subscripts and
    [float()] raise. *)
Definition async_transform_coordinates (session : string -> option value)
  (latitude longitude : value)
  : result (option Float.float * option Float.float) :=
  match session (transform_url latitude longitude) with
  | None => Ok (None, None)
  | Some coordinates =>
      try_except
        (x <- getitem coordinates (KStr "x") ;;
         x <- to_float x ;;
         y <- getitem coordinates (KStr "y") ;;
         y <- to_float y ;;
         Ok (Some x, Some y))
        Exception
        (Ok (None, None))
  end.

End Api.

(* ================================================================== *)
(** * The request handler of [app/main.py] *)
(* ================================================================== *)

Module Main.
Import Py Json Datetime Api.

(** What a block can raise: an [HTTPException], which is an [Exception]
    too, or one of the exceptions of the runtime. *)
Inductive raised : Type :=
| HTTPException (status_code : Z) (detail : string)
| Error (e : exn).

Inductive tried (A : Type) : Type :=
| Returned (a : A)
| Raised (r : raised).

Arguments Returned {A} a.
Arguments Raised {A} r.

Definition lift {A : Type} (c : result A) : tried A :=
  match c with
  | Ok a => Returned a
  | Raise e => Raised (Error e)
  end.

Definition tbind {A B : Type} (c : tried A) (k : A -> tried B) : tried B :=
  match c with
  | Returned a => k a
  | Raised r => Raised r
  end.

(** What the handler ends with: the dictionary it returns, or
    [HTTPException(status_code, detail=str(cause))]. *)
Inductive reply : Type :=
| Body (response_data : value)
| Status (status_code : Z) (cause : raised).

Definition of_option {A : Type} (f : A -> value) (o : option A) : value :=
  match o with
  | Some a => f a
  | None => VNone
  end.

Definition of_forecast (forecast : option (list dict)) : value :=
  of_option (fun l => VList (map VDict l)) forecast.

(** The dictionary literal, its items evaluated in order. *)
Definition response_data (tz : tzenv) (sw : Stookwijzer)
  (latitude longitude x y : Float.float) : result value :=
  bft <- windspeed_bft sw ;;
  ms <- windspeed_ms sw ;;
  index <- lki sw ;;
  advices <- forecast_advice tz sw ;;
  alerts <- forecast_alert tz sw ;;
  Ok (VDict
        [("advice", of_option VStr (advice sw));
         ("alert", of_option VBool (alert sw));
         ("windspeed_bft", bft);
         ("windspeed_ms", ms);
         ("lki", index);
         ("forecast_advice", of_forecast advices);
         ("forecast_alert", of_forecast alerts);
         ("last_updated", of_option (fun t => VStr (isoformat t)) (last_updated sw));
         ("coordinates",
          VDict [("original", VDict [("latitude", VFloat latitude);
                                     ("longitude", VFloat longitude)]);
                 ("transformed", VDict [("x", VFloat x); ("y", VFloat y)])])]).

(** The block under [try]. *)
Definition attempt (session : string -> option value) (tz : tzenv) (now : datetime)
  (latitude longitude : Float.float) : tried value :=
  tbind (lift (async_transform_coordinates session (VFloat latitude)
                                           (VFloat longitude))) (fun xy =>
  match xy with
  | (Some x, Some y) =>
      tbind (lift (__init__ session (VFloat x) (VFloat y))) (fun sw =>
      tbind (lift (async_update now sw)) (fun sw =>
      match advice sw with
      | None => Raised (HTTPException 404 "No data available for these coordinates")
      | Some _ => lift (response_data tz sw latitude longitude x y)
      end))
  | _ => Raised (HTTPException 400 "Failed to transform coordinates")
  end).

(** [get_stookwijzer_data(latitude, longitude)].  The session, the zone
    data and the clock are what the handler finds outside. *)
Definition get_stookwijzer_data (session : string -> option value) (tz : tzenv)
  (now : datetime) (latitude longitude : Float.float) : reply :=
  match attempt session tz now latitude longitude with
  | Returned data => Body data
  | Raised e => Status 500 e
  end.

End Main.

(* ================================================================== *)
(** * Sample instances *)
(* ================================================================== *)

Module Samples.
Import Py Json Datetime Api.

(** A feature collection with one feature carrying [props]. *)
Definition payload (props : dict) : value :=
  VDict [("type", VStr "FeatureCollection");
         ("features", VList [VDict [("type", VStr "Feature");
                                    ("properties", VDict props)]])].

(** A feature collection without features. *)
Definition no_features : value :=
  VDict [("type", VStr "FeatureCollection"); ("features", VList [])].

(** A session whose every request is answered with [body]. *)
Definition serves (body : value) : string -> option value := fun _ => Some body.

(** A session whose every request times out. *)
Definition times_out : string -> option value := fun _ => None.

(** A fresh instance at the coordinates (100000, 400000). *)
Definition fresh (session : string -> option value) : Stookwijzer :=
  mkStookwijzer
    (Some "100000.000000%2C400000.000000%2C100010.000000%2C400010.000000")
    None None None VNone session.

(** An instance that already holds [body]. *)
Definition holding (body : value) : Stookwijzer :=
  set_stookwijzer (fresh (serves body)) body.

(** 2024-06-01T12:00:00.250000 on the local clock. *)
Definition noon : datetime := mkdatetime 63852840000250000 None.

(** A system on UTC, and Amsterdam one hour ahead of it. *)
Definition utc_system : tzenv := mktzenv (fun _ => 0) (fun _ => 3600).

(** 52 degrees north, 5 degrees east. *)
Definition latitude : Float.float := Float.of_decimal false 52 0.
Definition longitude : Float.float := Float.of_decimal false 5 0.

(** The answer of the coordinate service for that place. *)
Definition planar : value :=
  VDict [("x", VFloat (Float.of_decimal false 155000 0));
         ("y", VFloat (Float.of_decimal false 463000 0))].

(** A session that answers the transformation of that place with
    [coordinates] and every other request with [features]. *)
Definition service (coordinates features : value) : string -> option value :=
  fun u => if String.eqb u (transform_url (VFloat latitude) (VFloat longitude))
           then Some coordinates else Some features.

End Samples.

(* ================================================================== *)
(** * Vocabulary of the statements *)
(* ================================================================== *)

Module Spec.
Import Py Json Datetime Api.

(** What [get_property] returns, as a plain string (see [get_property_eq]). *)
Definition property_or_empty (self : Stookwijzer) (prop : string) : string :=
  match lookup self prop with
  | Ok v => str v
  | Raise _ => ""
  end.

(** The instance right after the fetch of [async_update], before the
    current fields are touched. *)
Definition fetched (self : Stookwijzer) : Stookwijzer :=
  set_stookwijzer self (async_get_stookwijzer self).

(** [q] is the integer nearest to [n / d], the even one of two that are
    equally near: rounding half to even. *)
Definition nearest_even (n d q : Z) : Prop :=
  2 * Z.abs (n - q * d) <= d
  /\ (2 * Z.abs (n - q * d) = d -> Z.even q = true).

Fixpoint all_digits (s : string) : bool :=
  match s with
  | EmptyString => true
  | String c r => is_digit c && all_digits r
  end.

(** [s] is a decimal numeral with exactly six digits after the point: an
    optional minus sign, at least one digit, a point, six digits. *)
Definition six_fraction_digits (s : string) : Prop :=
  exists sign whole frac,
    s = sign ++ whole ++ "." ++ frac
    /\ (sign = "" \/ sign = "-")
    /\ whole <> ""
    /\ all_digits whole = true
    /\ all_digits frac = true
    /\ String.length frac = 6%nat.

(** [f] is a number a Python [float] can hold: a finite binary64 value. *)
Definition is_number (f : Float.float) : bool :=
  valid_binary Float.prec Float.emax f && Float.is_finite f.

(** [float(v)] fails because [v] is not a number or a numeral. *)
Definition not_a_number (v : value) : Prop :=
  to_float v = Raise ValueError \/ to_float v = Raise TypeError.

(** [dt] moved [h] hours along the wall clock, in the same zone. *)
Definition plus_hours (dt : datetime) (h : Z) : datetime :=
  mkdatetime (wall dt + h * 3600 * US_PER_SECOND) (utcoffset dt).

(** The ["datetime"] items of a forecast. *)
Definition timestamps (forecast : list dict) : list (option value) :=
  map (dict_get "datetime") forecast.

(** The entry [get_forecast_at_offset] builds for the time [t]. *)
Definition entry (self : Stookwijzer) (t : datetime) (offset : Z) (advice : bool)
  : dict :=
  [("datetime", VStr (isoformat t));
   if advice
   then ("advice", VStr (get_color (property_or_empty self ("advies_" ++ str_int offset))))
   else ("alert", VBool (String.eqb (property_or_empty self ("alert_" ++ str_int offset)) "1"))].

(** The hours at which the forecast is read. *)
Definition hours : list Z := [2; 4; 6; 8; 10; 12; 14; 16; 18; 20; 22; 24].

(** Two results agree on whether there is a forecast and on its
    timestamps, or raise the same exception: of two forecasts every entry
    has a string under ["datetime"], the same in both at each index. *)
Definition same_timestamps (a b : result (option (list dict))) : Prop :=
  match a, b with
  | Ok (Some l), Ok (Some l') =>
      List.length l = List.length l'
      /\ forall i, (i < List.length l)%nat ->
           exists t : string,
             nth_error (timestamps l) i = Some (Some (VStr t))
             /\ nth_error (timestamps l') i = Some (Some (VStr t))
  | Ok None, Ok None => True
  | Raise e, Raise e' => e = e'
  | _, _ => False
  end.

(** The four results of [get_color]. *)
Definition codes : list string := ["code_yellow"; "code_orange"; "code_red"; ""].

(** The boundary box of two floats. *)
Definition box (x y : Float.float) : string :=
  join "%2C" [Float.format_f6 x; Float.format_f6 y;
              Float.format_f6 (Float.add x Float.ten);
              Float.format_f6 (Float.add y Float.ten)].

(** The instance [Stookwijzer(session, x, y)] for two floats. *)
Definition started (session : string -> option value) (x y : Float.float)
  : Stookwijzer :=
  mkStookwijzer (Some (box x y)) None None None VNone session.

(** The current fields are all unset, or all set with a colour code as
    the advice. *)
Definition all_or_nothing (self : Stookwijzer) : Prop :=
  (_advice self = None /\ _alert self = None /\ _last_updated self = None)
  \/ (exists c b t, _advice self = Some c /\ In c codes
                    /\ _alert self = Some b /\ _last_updated self = Some t).

(** One call of [async_update] for each clock value, in a row. *)
Fixpoint updates (nows : list datetime) (self : Stookwijzer) : result Stookwijzer :=
  match nows with
  | [] => Ok self
  | now :: later => self' <- async_update now self ;; updates later self'
  end.

(** An entry of a forecast: a timestamp, then a colour code under
    ["advice"] or a truth value under ["alert"]. *)
Definition entry_shape (advice : bool) (d : dict) : Prop :=
  exists iso,
    if advice
    then exists c, d = [("datetime", VStr iso); ("advice", VStr c)] /\ In c codes
    else exists b, d = [("datetime", VStr iso); ("alert", VBool b)].

End Spec.

(* ================================================================== *)
(** * Properties *)
(* ================================================================== *)

Import Py Json Datetime Api Spec.

(** ** The property extractor *)

Lemma index_raises (A : Type) (l : list A) (i : Z) (e : exn) :
  index l i = Raise e -> e = IndexError.
Proof.
  unfold index.
  destruct ((0 <=? _) && _); [destruct (nth_error _ _)|]; congruence.
Qed.

Lemma getitem_raises (v : value) (k : key) (e : exn) :
  getitem v k = Raise e -> e = KeyError \/ e = IndexError \/ e = TypeError.
Proof.
  destruct v, k; simpl; try (intros [= <-]; auto).
  - destruct (index _ i) eqn:E; simpl; [discriminate|].
    intros [= <-]. apply index_raises in E. auto.
  - intros H. apply index_raises in H. auto.
  - destruct (dict_get s d); [discriminate|]. intros [= <-]. auto.
Qed.

Lemma lookup_raises (self : Stookwijzer) (prop : string) (e : exn) :
  lookup self prop = Raise e -> e = KeyError \/ e = IndexError \/ e = TypeError.
Proof.
  unfold lookup.
  destruct (getitem (_stookwijzer self) _) as [a|e1] eqn:E1; simpl;
    [|intros [= <-]; eauto using getitem_raises].
  destruct (getitem a (KInt 0)) as [b|e2] eqn:E2; simpl;
    [|intros [= <-]; eauto using getitem_raises].
  destruct (getitem b _) as [c|e3] eqn:E3; simpl;
    [|intros [= <-]; eauto using getitem_raises].
  apply getitem_raises.
Qed.

Lemma get_property_eq (self : Stookwijzer) (prop : string) :
  get_property self prop = Ok (property_or_empty self prop).
Proof.
  unfold get_property, property_or_empty.
  destruct (lookup self prop) as [v|e] eqn:E; simpl; [reflexivity|].
  destruct (lookup_raises _ _ _ E) as [-> | [-> | ->]]; reflexivity.
Qed.

Lemma lookup_payload (self : Stookwijzer) (payload : value) (prop : string) :
  lookup (set_stookwijzer self payload) prop
  = lookup (mkStookwijzer None None None None payload (fun _ => None)) prop.
Proof. reflexivity. Qed.

Lemma get_property_set_current (self : Stookwijzer) a b t (prop : string) :
  get_property (set_current self a b t) prop = get_property self prop.
Proof. reflexivity. Qed.

Lemma truthy_false (s : string) : truthy s = false <-> s = "".
Proof. destruct s; simpl; split; congruence. Qed.

Lemma truthy_true (s : string) : truthy s = true <-> s <> "".
Proof. destruct s; simpl; split; congruence. Qed.

(** ** C4: the colour mapping *)

(** C4.  [get_color] maps exactly ["0"] to the yellow code, exactly ["1"] to
    the orange code, exactly ["2"] to the red code, and every other string,
    the empty one and ["9"] among them, to the empty result.  The match is
    on the string itself: a string that merely reads as the number 0, 1 or 2
    (["00"], ["1.0"], [" 2"]) is mapped to the empty result. *)
Theorem get_color_exact (s : string) :
  (get_color s = "code_yellow" <-> s = "0")
  /\ (get_color s = "code_orange" <-> s = "1")
  /\ (get_color s = "code_red" <-> s = "2")
  /\ (get_color s = "" <-> s <> "0" /\ s <> "1" /\ s <> "2")
  /\ get_color "" = "" /\ get_color "9" = ""
  /\ get_color "00" = "" /\ get_color "1.0" = "" /\ get_color " 2" = "".
Proof.
  unfold get_color.
  destruct (String.eqb_spec s "0") as [->|H0]; [|
  destruct (String.eqb_spec s "1") as [->|H1]; [|
  destruct (String.eqb_spec s "2") as [->|H2]]];
    simpl; repeat split; try reflexivity; try discriminate;
    try congruence; try tauto; intros (?&?&?); congruence.
Qed.

(** ** C7: the property extractor *)

(** C7.  [get_property] never raises: it returns [str] of
    [payload["features"][0]["properties"][prop]] when that value exists, and
    the empty string whenever the subscripting fails, in particular when the
    payload is [None], when it has no ["features"] or an empty list of them,
    and when the properties lack [prop].  A computation that reads a
    property therefore always goes on with the rest of the derivation. *)
Theorem get_property_never_raises (self : Stookwijzer) (prop : string) :
  (exists s, get_property self prop = Ok s)
  /\ (forall v, lookup self prop = Ok v -> get_property self prop = Ok (str v))
  /\ (forall e, lookup self prop = Raise e -> get_property self prop = Ok "")
  /\ (_stookwijzer self = VNone -> get_property self prop = Ok "")
  /\ (forall d, _stookwijzer self = VDict d ->
        dict_get "features" d = None \/ dict_get "features" d = Some (VList []) ->
        get_property self prop = Ok "")
  /\ (forall d feature rest props,
        _stookwijzer self = VDict d ->
        dict_get "features" d = Some (VList (VDict feature :: rest)) ->
        dict_get "properties" feature = Some (VDict props) ->
        get_property self prop
        = Ok match dict_get prop props with
             | Some v => str v
             | None => ""
             end)
  /\ (forall (B : Type) (k : string -> result B),
        (p <- get_property self prop ;; k p) = k (property_or_empty self prop)).
Proof.
  rewrite get_property_eq. unfold property_or_empty, lookup.
  repeat split.
  - eauto.
  - intros v ->. reflexivity.
  - intros e ->. reflexivity.
  - intros ->. reflexivity.
  - intros d -> [H|H]; simpl; rewrite H; reflexivity.
  - intros d feature rest props -> Hf Hp. simpl. rewrite Hf. simpl.
    rewrite Hp. simpl. destruct (dict_get prop props); reflexivity.
Qed.

(** A payload that is [None], one without features, one whose feature
    lacks the property: the empty string each time.  A number is read back
    as its numeral. *)
Lemma get_property_absent :
  get_property (Samples.holding VNone) "wind" = Ok ""
  /\ get_property (Samples.holding Samples.no_features) "wind" = Ok ""
  /\ get_property (Samples.holding (Samples.payload [])) "wind" = Ok ""
  /\ get_property (Samples.holding (Samples.payload [("wind", VInt 3)])) "wind"
     = Ok "3".
Proof. vm_compute. repeat split; reflexivity. Qed.

(** A present property is read back as its string. *)
Lemma get_property_witness :
  get_property (Samples.holding (Samples.payload [("wind", VStr "4.27")])) "wind"
  = Ok "4.27".
Proof.
  exact (proj1 (proj2 (get_property_never_raises
                         (Samples.holding (Samples.payload [("wind", VStr "4.27")]))
                         "wind"))
               (VStr "4.27") eq_refl).
Defined.

(** ** C1 and C6: one update cycle *)

Lemma async_update_eq (now : datetime) (self : Stookwijzer) :
  async_update now self
  = Ok (if truthy (property_or_empty (fetched self) "advies_0")
        then set_current (fetched self)
               (get_color (property_or_empty (fetched self) "advies_0"))
               (String.eqb (property_or_empty (fetched self) "alert_0") "1")
               now
        else fetched self).
Proof.
  unfold async_update. fold (fetched self).
  rewrite get_property_eq. simpl.
  destruct (truthy _); [rewrite get_property_eq|]; reflexivity.
Qed.

(** C1.  One call of [async_update] fetches the payload and then either
    sets all three current fields or none of them.  When ["advies_0"] is
    read as a non-empty string, [_advice] is its colour, [_alert] says
    whether ["alert_0"] reads ["1"], and [_last_updated] is the clock at
    that moment.  When it is read as the empty string (absent or empty),
    the three fields keep what they held before the call, which is [None]
    for an instance fresh from [__init__] -- whatever the fetch returned.
    The forecast is read from the payload alone, so it is the same whether
    or not the current fields were set. *)
Theorem async_update_all_or_nothing (now : datetime) (self : Stookwijzer) :
  exists self' advies_0 alert_0,
    async_update now self = Ok self'
    /\ _stookwijzer self' = async_get_stookwijzer self
    /\ get_property self' "advies_0" = Ok advies_0
    /\ get_property self' "alert_0" = Ok alert_0
    /\ (advies_0 <> "" ->
          _advice self' = Some (get_color advies_0)
          /\ _alert self' = Some (String.eqb alert_0 "1")
          /\ _last_updated self' = Some now)
    /\ (advies_0 = "" ->
          _advice self' = _advice self
          /\ _alert self' = _alert self
          /\ _last_updated self' = _last_updated self)
    /\ (forall session x y, __init__ session x y = Ok self ->
          _advice self = None /\ _alert self = None /\ _last_updated self = None)
    /\ (forall tz b,
          get_forecast_array tz self' b = get_forecast_array tz (fetched self) b).
Proof.
  rewrite async_update_eq.
  set (a := property_or_empty (fetched self) "advies_0").
  set (b := property_or_empty (fetched self) "alert_0").
  eexists. exists a, b. split; [reflexivity|].
  assert (Hinit : forall session x y, __init__ session x y = Ok self ->
            _advice self = None /\ _alert self = None /\ _last_updated self = None).
  { intros session x y. unfold __init__.
    destruct (get_boundary_box x y); simpl; [|discriminate].
    intros [= <-]. auto. }
  destruct (truthy a) eqn:T.
  - apply truthy_true in T.
    rewrite !get_property_set_current, !get_property_eq.
    split; [reflexivity|]. split; [reflexivity|]. split; [reflexivity|].
    split; [intros _; auto|]. split; [intros E; contradiction|].
    split; [exact Hinit|reflexivity].
  - apply truthy_false in T.
    rewrite !get_property_eq.
    split; [reflexivity|]. split; [reflexivity|]. split; [reflexivity|].
    split; [intros E; contradiction|]. split; [intros _; auto|].
    split; [exact Hinit|reflexivity].
Qed.

(** A payload with a forecast base but without ["advies_0"]: the fetch
    succeeds, the three current fields stay [None], the forecast is there. *)
Lemma update_without_current_advice :
  let body := Samples.payload [("model_runtime", VStr "01-01-2024 00:00");
                               ("alert_0", VStr "1")] in
  let self := Samples.fresh (Samples.serves body) in
  async_update Samples.noon self = Ok (Samples.holding body)
  /\ advice (Samples.holding body) = None
  /\ alert (Samples.holding body) = None
  /\ last_updated (Samples.holding body) = None
  /\ option_map (@List.length dict)
       match forecast_advice Samples.utc_system (Samples.holding body) with
       | Ok l => l
       | Raise _ => None
       end = Some 12%nat.
Proof. vm_compute. repeat split; reflexivity. Qed.

(** With ["advies_0"] and ["alert_0"] present the three fields are set. *)
Lemma update_with_current_advice :
  let body := Samples.payload [("advies_0", VStr "2"); ("alert_0", VStr "1")] in
  async_update Samples.noon (Samples.fresh (Samples.serves body))
  = Ok (set_current (Samples.holding body) "code_red" true Samples.noon).
Proof. vm_compute. reflexivity. Qed.

(** A request that times out leaves a fresh instance empty. *)
Lemma update_after_timeout :
  async_update Samples.noon (Samples.fresh Samples.times_out)
  = Ok (Samples.fresh Samples.times_out).
Proof. vm_compute. reflexivity. Qed.

(** C6, as stated, fails.  For a location without features ["alert_0"] is
    absent, and the update leaves [alert] at [None], which is not [False].
    And when the payload says ["alert_0" = "1"] but has no ["advies_0"],
    [alert] stays [None] as well, which is not [True]. *)
Lemma alert_unset_although_alert_0_is_1 :
  let body := Samples.payload [("alert_0", VStr "1")] in
  (async_update Samples.noon (Samples.fresh (Samples.serves Samples.no_features))
   = Ok (Samples.holding Samples.no_features)
   /\ get_property (Samples.holding Samples.no_features) "alert_0" = Ok ""
   /\ alert (Samples.holding Samples.no_features) = None
   /\ alert (Samples.holding Samples.no_features) <> Some false)
  /\ (async_update Samples.noon (Samples.fresh (Samples.serves body))
      = Ok (Samples.holding body)
      /\ get_property (Samples.holding body) "alert_0" = Ok "1"
      /\ alert (Samples.holding body) = None
      /\ alert (Samples.holding body) <> Some true).
Proof. vm_compute. repeat split; try reflexivity; discriminate. Qed.

(** C6, amended.  After an update that read a non-empty ["advies_0"],
    [alert] is [True] exactly when ["alert_0"] reads as the string ["1"],
    and [False] otherwise, so for ["0"] and for an absent ["alert_0"];
    after an update that read no ["advies_0"], [alert] is what it was
    before the update. *)
Theorem alert_iff_alert_0_is_1 (now : datetime) (self self' : Stookwijzer)
  (advies_0 alert_0 : string) :
  async_update now self = Ok self' ->
  get_property self' "advies_0" = Ok advies_0 ->
  get_property self' "alert_0" = Ok alert_0 ->
  (advies_0 <> "" ->
     (alert self' = Some true <-> alert_0 = "1")
     /\ (alert self' = Some false <-> alert_0 <> "1")
     /\ (alert_0 = "0" \/ alert_0 = "" -> alert self' = Some false))
  /\ (advies_0 = "" -> alert self' = alert self).
Proof.
  rewrite async_update_eq. intros [= <-]. unfold alert.
  destruct (truthy (property_or_empty (fetched self) "advies_0")) eqn:T.
  - rewrite !get_property_set_current, !get_property_eq.
    intros [= <-] [= <-]. apply truthy_true in T. simpl.
    split; [intros _|intros E; contradiction].
    destruct (String.eqb_spec (property_or_empty (fetched self) "alert_0") "1")
      as [->|Hn].
    + split; [tauto|]. split; [split; [discriminate|congruence]|].
      intros [H|H]; discriminate.
    + split; [split; [discriminate|contradiction]|]. split; tauto.
  - rewrite !get_property_eq.
    intros [= <-] _. apply truthy_false in T.
    split; [intros E; contradiction|reflexivity].
Qed.

(** With ["advies_0" = "2"] and ["alert_0" = "1"] the alert is set. *)
Lemma alert_iff_alert_0_is_1_witness :
  alert (set_current
           (Samples.holding
              (Samples.payload [("advies_0", VStr "2"); ("alert_0", VStr "1")]))
           "code_red" true Samples.noon) = Some true
  <-> "1" = "1".
Proof.
  exact (proj1 (proj1 (alert_iff_alert_0_is_1 Samples.noon
                  (Samples.fresh
                     (Samples.serves
                        (Samples.payload [("advies_0", VStr "2"); ("alert_0", VStr "1")])))
                  (set_current
                     (Samples.holding
                        (Samples.payload [("advies_0", VStr "2"); ("alert_0", VStr "1")]))
                     "code_red" true Samples.noon)
                  "2" "1"
                  ltac:(vm_compute; reflexivity) ltac:(vm_compute; reflexivity)
                  ltac:(vm_compute; reflexivity))
               ltac:(discriminate))).
Defined.

(** ** C5, C8 and C10: the wind readings *)

Lemma rhe_div_nearest_even (n d : Z) :
  0 < d -> nearest_even n d (Float.rhe_div n d).
Proof.
  intros Hd. unfold nearest_even, Float.rhe_div.
  pose proof (Z.div_mod n d ltac:(lia)) as E.
  pose proof (Z.mod_pos_bound n d Hd) as B.
  destruct (Z.compare_spec (2 * (n mod d)) d) as [C|C|C].
  - destruct (Z.even (n / d)) eqn:Ev.
    + split; [lia|auto].
    + split; [lia|]. intros _.
      replace (n / d + 1) with (Z.succ (n / d)) by lia.
      rewrite Z.even_succ, <- Z.negb_even, Ev. reflexivity.
  - split; lia.
  - split; lia.
Qed.

(** C8, as stated, fails: without ["wind_bft"] the property is the empty
    string, not [None]; and a present ["wind_bft"] comes back as a string,
    not as a number. *)
Lemma windspeed_bft_absent_is_empty_string :
  windspeed_bft (Samples.holding (Samples.payload [])) = Ok (VStr "")
  /\ windspeed_bft (Samples.holding (Samples.payload [])) <> Ok VNone
  /\ windspeed_bft (Samples.holding (Samples.payload [("wind_bft", VStr "3")]))
     = Ok (VStr "3")
  /\ windspeed_bft (Samples.holding (Samples.payload [("wind_bft", VStr "3")]))
     <> Ok (VInt 3).
Proof. vm_compute. repeat split; try reflexivity; discriminate. Qed.

(** C8, amended.  [windspeed_bft] never raises and returns what
    [get_property] reads for ["wind_bft"], as a string and unparsed: [str]
    of the value when it is present, the empty string when it is absent. *)
Theorem windspeed_bft_is_the_property_string (self : Stookwijzer) :
  exists p,
    get_property self "wind_bft" = Ok p
    /\ windspeed_bft self = Ok (VStr p)
    /\ (forall v, lookup self "wind_bft" = Ok v -> p = str v)
    /\ (forall e, lookup self "wind_bft" = Raise e -> p = "").
Proof.
  unfold windspeed_bft. rewrite get_property_eq.
  eexists. repeat split; unfold property_or_empty.
  - intros v ->. reflexivity.
  - intros e ->. reflexivity.
Qed.

(** C5, as stated, fails: without ["wind"] the property is the empty
    string, not [None]. *)
Lemma windspeed_ms_absent_is_empty_string :
  windspeed_ms (Samples.holding (Samples.payload [])) = Ok (VStr "")
  /\ windspeed_ms (Samples.holding (Samples.payload [])) <> Ok VNone.
Proof. vm_compute. split; [reflexivity|discriminate]. Qed.

(** C5, amended.  When ["wind"] reads as a numeral, [windspeed_ms] is that
    number rounded at one decimal, half to even: the float nearest to
    [N / 10], where [N] is the integer nearest to ten times the exact value,
    the even one in a tie; so ["4.27"] gives 4.3.  When ["wind"] is absent
    or empty, [windspeed_ms] is the empty string. *)
Theorem windspeed_ms_rounds_half_even (self : Stookwijzer) (wind : string) :
  get_property self "wind" = Ok wind ->
  (wind = "" -> windspeed_ms self = Ok (VStr ""))
  /\ (forall f, wind <> "" -> Float.of_string wind = Ok f ->
        windspeed_ms self = Ok (VFloat (Float.round1 f)))
  /\ (forall s m e,
        Float.round1 (S754_finite s m e)
        = Float.of_decimal s (Float.scaled m e 1) (-1)
        /\ (e < 0 -> nearest_even (Zpos m * 10) (2 ^ (- e)) (Float.scaled m e 1))
        /\ (0 <= e -> Float.scaled m e 1 = Zpos m * 2 ^ e * 10))
  /\ (wind = "4.27" ->
        windspeed_ms self = Ok (VFloat (Float.of_decimal false 43 (-1)))
        /\ Float.repr (Float.of_decimal false 43 (-1)) = "4.3").
Proof.
  intros Hw. unfold windspeed_ms. rewrite Hw. unfold bind at 1 2 3.
  split; [intros ->; reflexivity|].
  split; [intros f Hne Hf; apply truthy_true in Hne; rewrite Hne, Hf; reflexivity|].
  split.
  - intros s m e. split; [reflexivity|]. unfold Float.scaled. split; intros He.
    + destruct (Z.leb_spec 0 e); [lia|].
      change (10 ^ 1) with 10.
      apply rhe_div_nearest_even. apply Z.pow_pos_nonneg; lia.
    + destruct (Z.leb_spec 0 e); [reflexivity|lia].
  - intros ->. split; vm_compute; reflexivity.
Qed.

(** Read from a payload: ["wind" = "4.27"] gives the float 4.3. *)
Lemma windspeed_ms_witness :
  windspeed_ms (Samples.holding (Samples.payload [("wind", VStr "4.27")]))
  = Ok (VFloat (Float.of_decimal false 43 (-1))).
Proof.
  exact (proj1 (proj2 (proj2 (proj2
           (windspeed_ms_rounds_half_even
              (Samples.holding (Samples.payload [("wind", VStr "4.27")]))
              "4.27" eq_refl))) eq_refl)).
Defined.

(** Ties go to the even tenth: 0.25 gives 0.2 and 0.75 gives 0.8. *)
Lemma round1_ties :
  Float.repr (Float.round1 (Float.of_decimal false 25 (-2))) = "0.2"
  /\ Float.repr (Float.round1 (Float.of_decimal false 75 (-2))) = "0.8".
Proof. vm_compute. split; reflexivity. Qed.

(** Whatever [float()] raises on a non-empty ["wind"] leaves
    [windspeed_ms] as it is. *)
Lemma windspeed_ms_propagates (self : Stookwijzer) (wind : string) (e : exn) :
  get_property self "wind" = Ok wind -> wind <> "" ->
  Float.of_string wind = Raise e -> windspeed_ms self = Raise e.
Proof.
  intros Hp Hne Hf. unfold windspeed_ms. rewrite Hp. cbn [bind].
  apply truthy_true in Hne. rewrite Hne, Hf. reflexivity.
Qed.

(** C10: on a payload whose ["wind"] is not a numeral, [float()] raises
    [ValueError] and nothing in [windspeed_ms] catches it. *)
Theorem windspeed_ms_raises_on_non_numeric :
  windspeed_ms (Samples.holding (Samples.payload [("wind", VStr "abc")]))
  = Raise ValueError
  /\ windspeed_ms (Samples.holding (Samples.payload [("wind", VNone)]))
     = Raise ValueError.
Proof. vm_compute. split; reflexivity. Qed.

(** ** C3: the bounding box *)

Lemma all_digits_app (a b : string) :
  all_digits (a ++ b) = all_digits a && all_digits b.
Proof.
  induction a as [|c a IH]; simpl; [reflexivity|].
  rewrite IH. apply andb_assoc.
Qed.

Lemma length_app (a b : string) :
  String.length (a ++ b) = (String.length a + String.length b)%nat.
Proof. induction a as [|c a IH]; simpl; [reflexivity|]. now rewrite IH. Qed.

Lemma digit_char_is_digit (d : Z) :
  0 <= d < 10 -> is_digit (digit_char d) = true.
Proof.
  intros H.
  assert (d = 0 \/ d = 1 \/ d = 2 \/ d = 3 \/ d = 4 \/ d = 5 \/ d = 6 \/ d = 7
          \/ d = 8 \/ d = 9) as C by lia.
  repeat (destruct C as [->|C]; [reflexivity|]). subst. reflexivity.
Qed.

Lemma fixed_digits_length (w : nat) (n : Z) :
  String.length (fixed_digits w n) = w.
Proof.
  revert n. induction w as [|w IH]; intros n; simpl; [reflexivity|].
  rewrite length_app, IH. simpl. lia.
Qed.

Lemma fixed_digits_all_digits (w : nat) (n : Z) :
  all_digits (fixed_digits w n) = true.
Proof.
  revert n. induction w as [|w IH]; intros n; simpl; [reflexivity|].
  rewrite all_digits_app, IH. simpl.
  rewrite digit_char_is_digit; [reflexivity|]. apply Z.mod_pos_bound. lia.
Qed.

Lemma string_of_uint_all_digits (u : Decimal.uint) :
  all_digits (NilEmpty.string_of_uint u) = true.
Proof. induction u; simpl; auto. Qed.

Lemma str_int_numeral (n : Z) :
  0 <= n -> str_int n <> "" /\ all_digits (str_int n) = true.
Proof.
  intros H. unfold str_int.
  destruct n as [|p|p]; [split; [discriminate|reflexivity]| |lia].
  simpl. unfold NilZero.string_of_uint.
  pose proof (string_of_uint_all_digits (Pos.to_uint p)) as D.
  destruct (Pos.to_uint p); simpl in *; split; try discriminate; auto.
Qed.

Lemma rhe_div_nonneg (n d : Z) : 0 <= n -> 0 < d -> 0 <= Float.rhe_div n d.
Proof.
  intros Hn Hd. unfold Float.rhe_div.
  pose proof (Z.div_pos n d Hn Hd).
  destruct (_ ?= _); [destruct (Z.even _)| |]; lia.
Qed.

Lemma scaled_nonneg (m : positive) (e k : Z) : 0 <= Float.scaled m e k.
Proof.
  unfold Float.scaled. destruct (Z.leb_spec 0 e).
  - apply Z.mul_nonneg_nonneg; [apply Z.mul_nonneg_nonneg|];
      try lia; apply Z.pow_nonneg; lia.
  - apply rhe_div_nonneg.
    + apply Z.mul_nonneg_nonneg; [lia|apply Z.pow_nonneg; lia].
    + apply Z.pow_pos_nonneg; lia.
Qed.

Lemma format_f6_six_fraction_digits (f : Float.float) :
  Float.is_finite f = true -> six_fraction_digits (Float.format_f6 f).
Proof.
  destruct f as [s|s| |s m e]; try discriminate; intros _;
    unfold Float.format_f6.
  - exists (Float.sign_str s), "0", (fixed_digits 6 0).
    repeat split; try discriminate. destruct s; auto.
  - pose proof (scaled_nonneg m e 6) as Hn.
    set (n := Float.scaled m e 6) in *.
    destruct (str_int_numeral (n / 10 ^ 6)) as [Hne Hd].
    { apply Z.div_pos; lia. }
    exists (Float.sign_str s), (str_int (n / 10 ^ 6)), (fixed_digits 6 (n mod 10 ^ 6)).
    split; [reflexivity|]. split; [destruct s; auto|].
    split; [exact Hne|]. split; [exact Hd|].
    split; [apply fixed_digits_all_digits|apply fixed_digits_length].
Qed.

(** *** Adding 10.0 to a finite float gives a finite float *)

Lemma digits2_pos_size (p : positive) : digits2_pos p = Pos.size p.
Proof. induction p; simpl; congruence. Qed.

Lemma digits2_bounds (p : positive) :
  2 ^ (Zpos (digits2_pos p) - 1) <= Zpos p < 2 ^ Zpos (digits2_pos p).
Proof.
  rewrite digits2_pos_size.
  pose proof (Pos.size_gt p) as G. pose proof (Pos.size_le p) as L.
  apply Pos2Z.pos_lt_pos in G. apply Pos2Z.pos_le_pos in L.
  rewrite Pos2Z.inj_pow in G, L.
  split; [|exact G].
  replace (Zpos (Pos.size p)) with (Z.succ (Zpos (Pos.size p) - 1)) in L by lia.
  rewrite Z.pow_succ_r in L by lia. lia.
Qed.

Lemma digits2_le (p : positive) (k : Z) :
  0 <= k -> Zpos p < 2 ^ k -> Zpos (digits2_pos p) <= k.
Proof.
  intros Hk H. pose proof (digits2_bounds p) as [L _].
  assert (2 ^ (Zpos (digits2_pos p) - 1) < 2 ^ k) as P by lia.
  apply Z.pow_lt_mono_r_iff in P; lia.
Qed.

Lemma shr_1_spec (mrs : shr_record) :
  0 <= shr_m mrs ->
  shr_m (shr_1 mrs) = shr_m mrs / 2 /\ shr_r (shr_1 mrs) = Z.odd (shr_m mrs).
Proof.
  destruct mrs as [m r s]. simpl. intros H.
  destruct m as [|[p|p|]|p]; simpl; try lia; split; try reflexivity.
  - apply Z.div_unique with 1; lia.
  - apply Z.div_unique with 0; lia.
Qed.

Lemma iter_shr_1 (n : positive) (mrs : shr_record) :
  0 <= shr_m mrs ->
  shr_m (iter_pos shr_1 n mrs) = shr_m mrs / 2 ^ Zpos n
  /\ shr_r (iter_pos shr_1 n mrs) = Z.odd (shr_m mrs / 2 ^ (Zpos n - 1)).
Proof.
  revert mrs. induction n as [n IH|n IH|]; intros mrs H; simpl iter_pos.
  - destruct (shr_1_spec mrs H) as [A _].
    assert (0 <= shr_m (shr_1 mrs)) as H1 by (rewrite A; apply Z.div_pos; lia).
    destruct (IH _ H1) as [B _].
    assert (0 <= shr_m (iter_pos shr_1 n (shr_1 mrs))) as H2
      by (rewrite B; apply Z.div_pos; [lia|apply Z.pow_pos_nonneg; lia]).
    destruct (IH _ H2) as [C D]. rewrite C, D, B, A.
    assert (0 < 2 ^ Zpos n) by (apply Z.pow_pos_nonneg; lia).
    assert (0 < 2 ^ (Zpos n - 1)) by (apply Z.pow_pos_nonneg; lia).
    rewrite !Z.div_div by lia.
    assert (2 * (2 ^ Zpos n * 2 ^ Zpos n) = 2 ^ Zpos n~1) as ->.
    { replace (Zpos n~1) with (1 + (Zpos n + Zpos n)) by lia.
      rewrite !Z.pow_add_r by lia. reflexivity. }
    assert (2 * (2 ^ Zpos n * 2 ^ (Zpos n - 1)) = 2 ^ (Zpos n~1 - 1)) as ->.
    { replace (Zpos n~1 - 1) with (1 + (Zpos n + (Zpos n - 1))) by lia.
      rewrite !Z.pow_add_r by lia. reflexivity. }
    split; reflexivity.
  - destruct (IH _ H) as [B _].
    assert (0 <= shr_m (iter_pos shr_1 n mrs)) as H2
      by (rewrite B; apply Z.div_pos; [lia|apply Z.pow_pos_nonneg; lia]).
    destruct (IH _ H2) as [C D]. rewrite C, D, B.
    assert (0 < 2 ^ Zpos n) by (apply Z.pow_pos_nonneg; lia).
    assert (0 < 2 ^ (Zpos n - 1)) by (apply Z.pow_pos_nonneg; lia).
    rewrite !Z.div_div by lia.
    assert (2 ^ Zpos n * 2 ^ Zpos n = 2 ^ Zpos n~0) as ->.
    { replace (Zpos n~0) with (Zpos n + Zpos n) by lia.
      rewrite !Z.pow_add_r by lia. reflexivity. }
    assert (2 ^ Zpos n * 2 ^ (Zpos n - 1) = 2 ^ (Zpos n~0 - 1)) as ->.
    { replace (Zpos n~0 - 1) with (Zpos n + (Zpos n - 1)) by lia.
      rewrite !Z.pow_add_r by lia. reflexivity. }
    split; reflexivity.
  - destruct (shr_1_spec mrs H) as [A B]. rewrite A, B.
    change (2 ^ (1 - 1)) with 1. rewrite Z.div_1_r. split; reflexivity.
Qed.

Lemma round_nearest_even_spec (mrs : shr_record) :
  let r := round_nearest_even (shr_m mrs) (loc_of_shr_record mrs) in
  r = shr_m mrs \/ (r = shr_m mrs + 1 /\ shr_r mrs = true).
Proof.
  destruct mrs as [m [|] [|]]; simpl; auto.
  destruct (Z.even m); auto.
Qed.

Lemma iter_xO_spec (m d : positive) :
  Zpos (Pos.iter xO m d) = Zpos m * 2 ^ Zpos d
  /\ Zpos (digits2_pos (Pos.iter xO m d)) = Zpos (digits2_pos m) + Zpos d.
Proof.
  induction d as [|d IH] using Pos.peano_ind.
  - simpl. split; lia.
  - rewrite Pos.iter_succ. destruct IH as [A B].
    rewrite Pos2Z.inj_succ, Z.pow_succ_r by lia.
    split; [lia|]. simpl digits2_pos. lia.
Qed.

Lemma shl_align_spec (m : positive) (e t : Z) :
  let '(m', e') := shl_align m e t in
  Zpos m' = Zpos m * 2 ^ (e - e')
  /\ e' <= e /\ e' <= t
  /\ (t <= e -> e' = t)
  /\ Zpos (digits2_pos m') + e' = Zpos (digits2_pos m) + e.
Proof.
  unfold shl_align. destruct (t - e) as [|d|d] eqn:E.
  - replace (e - e) with 0 by lia. simpl. repeat split; lia.
  - replace (e - e) with 0 by lia. simpl. repeat split; lia.
  - destruct (iter_xO_spec m d) as [A B]. rewrite A, B.
    replace (e - t) with (Zpos d) by lia. repeat split; lia.
Qed.

Lemma fexp64_eq (x : Z) : fexp Float.prec Float.emax x = Z.max (x - 53) (-1074).
Proof. reflexivity. Qed.

Lemma round_aux_finite (sx : bool) (p : positive) (ex : Z) :
  ex <= fexp Float.prec Float.emax (Zpos (digits2_pos p) + ex) ->
  ex <= 970 ->
  Zpos p < 2 ^ (1024 - ex) - 2 ^ (970 - ex) ->
  Float.is_finite (binary_round_aux Float.prec Float.emax sx (Zpos p) ex loc_Exact) = true.
Proof.
  intros Hc Hex Hb.
  assert (0 < 2 ^ (970 - ex)) as P0 by (apply Z.pow_pos_nonneg; lia).
  assert (Zpos (digits2_pos p) <= 1024 - ex) as Hd by (apply digits2_le; lia).
  unfold binary_round_aux, shr_fexp. cbn [Zdigits2].
  set (e1 := fexp Float.prec Float.emax (Zpos (digits2_pos p) + ex)) in *.
  assert (e1 <= 971) as He1 by (unfold e1; rewrite fexp64_eq; lia).
  unfold shr at 1. destruct (e1 - ex) as [|n|n] eqn:En; try lia.
  - (* no shift *)
    cbn [shr_record_of_loc shr_m loc_of_shr_record round_nearest_even Zdigits2].
    fold e1. rewrite En. cbn [shr shr_record_of_loc shr_m].
    destruct (Z.leb_spec ex (Float.emax - Float.prec)); [reflexivity|unfold Float.emax, Float.prec in *; lia].
  - (* a shift by n *)
    set (mrs := iter_pos shr_1 n (shr_record_of_loc (Zpos p) loc_Exact)).
    destruct (iter_shr_1 n (shr_record_of_loc (Zpos p) loc_Exact)) as [Hm Hr];
      [simpl; lia|]. fold mrs in Hm, Hr. cbn [shr_record_of_loc shr_m] in Hm, Hr.
    assert (0 < 2 ^ Zpos n) as Pn by (apply Z.pow_pos_nonneg; lia).
    assert (0 <= shr_m mrs) as Hm0 by (rewrite Hm; apply Z.div_pos; lia).
    set (r := round_nearest_even (shr_m mrs) (loc_of_shr_record mrs)).
    assert (0 <= r < 2 ^ (1024 - (ex + Zpos n))) as Hrb.
    { assert (2 ^ (1024 - ex) = 2 ^ (1024 - (ex + Zpos n)) * 2 ^ Zpos n) as EA.
      { rewrite <- Z.pow_add_r by lia. f_equal. lia. }
      assert (2 ^ (Zpos n - 1) <= 2 ^ (970 - ex)) as EB
        by (apply Z.pow_le_mono_r; lia).
      assert (0 < 2 ^ (Zpos n - 1)) as Pn1 by (apply Z.pow_pos_nonneg; lia).
      assert (2 ^ Zpos n = 2 * 2 ^ (Zpos n - 1)) as EC.
      { rewrite <- Z.pow_succ_r by lia. f_equal. lia. }
      set (A := 2 ^ (1024 - (ex + Zpos n))) in *.
      assert (shr_m mrs < A) as Hlt.
      { rewrite Hm. apply Z.div_lt_upper_bound; lia. }
      destruct (round_nearest_even_spec mrs) as [E|[E R]]; fold r in E;
        rewrite E; [lia|]. split; [lia|].
      rewrite Hr in R.
      set (u := Zpos p / 2 ^ (Zpos n - 1)) in *.
      assert (Zpos p / 2 ^ Zpos n = u / 2) as Eu.
      { unfold u. rewrite Z.div_div by lia. f_equal. lia. }
      assert (2 ^ (Zpos n - 1) * u <= Zpos p) as Hu
        by (apply Z.mul_div_le; lia).
      rewrite Hm, Eu in *.
      pose proof (Z.div_mod u 2 ltac:(lia)) as Du.
      rewrite Zmod_odd, R in Du.
      nia. }
    destruct r as [|q|q] eqn:Er; try lia.
    + (* rounded to zero *)
      cbn [Zdigits2 shr_record_of_loc].
      destruct (shr _ _ _) as [mrs2 e2] eqn:S2.
      unfold shr in S2.
      destruct (fexp Float.prec Float.emax (0 + (ex + Zpos n)) - (ex + Zpos n)) as [|k|k];
        injection S2 as <- <-; try reflexivity.
      destruct (iter_shr_1 k {| shr_m := 0; shr_r := false; shr_s := false |})
        as [Z0' _]; [simpl; lia|].
      rewrite Z0'. simpl shr_m. rewrite Z.div_0_l; [reflexivity|].
      apply Z.pow_nonzero; lia.
    + cbn [Zdigits2 shr_record_of_loc].
      assert (Zpos (digits2_pos q) <= 1024 - (ex + Zpos n)) as Hq
        by (apply digits2_le; lia).
      set (e2 := fexp Float.prec Float.emax (Zpos (digits2_pos q) + (ex + Zpos n))).
      assert (e2 <= 971) as He2 by (unfold e2; rewrite fexp64_eq; lia).
      unfold shr. destruct (e2 - (ex + Zpos n)) as [|k|k] eqn:Ek.
      * cbn [shr_m]. destruct (Z.leb_spec (ex + Zpos n) (Float.emax - Float.prec));
          [reflexivity|unfold Float.emax, Float.prec in *; lia].
      * destruct (iter_shr_1 k {| shr_m := Zpos q; shr_r := false; shr_s := false |})
          as [Hk _]; [simpl; lia|].
        cbn [shr_m] in Hk.
        assert (0 <= Zpos q / 2 ^ Zpos k)
          by (apply Z.div_pos; [lia|apply Z.pow_pos_nonneg; lia]).
        cbn [fst snd]. rewrite Hk.
        destruct (Zpos q / 2 ^ Zpos k) as [|w|w]; try lia; [reflexivity|].
        destruct (Z.leb_spec (ex + Zpos n + Zpos k) (Float.emax - Float.prec));
          [reflexivity|unfold Float.emax, Float.prec in *; lia].
      * cbn [shr_m]. destruct (Z.leb_spec (ex + Zpos n) (Float.emax - Float.prec));
          [reflexivity|unfold Float.emax, Float.prec in *; lia].
Qed.

Lemma pow2_split (a b : Z) : 0 <= a -> 0 <= b -> 2 ^ (a + b) = 2 ^ a * 2 ^ b.
Proof. intros. apply Z.pow_add_r; lia. Qed.

Lemma binary_round_finite (sx : bool) (q : positive) (ez : Z) :
  ez <= 970 ->
  Zpos q < 2 ^ (1024 - ez) - 2 ^ (970 - ez) ->
  Float.is_finite (binary_round Float.prec Float.emax sx q ez) = true.
Proof.
  intros Hez Hq. unfold binary_round.
  pose proof (shl_align_spec q ez (fexp Float.prec Float.emax (Zpos (digits2_pos q) + ez))) as S.
  destruct (shl_align _ _ _) as [m' e'].
  destruct S as (Em & Le & Lt & _ & Ed).
  apply round_aux_finite; [rewrite Ed; exact Lt|lia|].
  rewrite Em.
  replace (1024 - e') with ((1024 - ez) + (ez - e')) by lia.
  replace (970 - e') with ((970 - ez) + (ez - e')) by lia.
  rewrite !pow2_split by lia.
  assert (0 < 2 ^ (ez - e')) by (apply Z.pow_pos_nonneg; lia).
  nia.
Qed.

Lemma bounded_spec (m : positive) (e : Z) :
  bounded Float.prec Float.emax m e = true -> Zpos m < 2 ^ 53 /\ -1074 <= e <= 971.
Proof.
  unfold bounded, canonical_mantissa. intros H.
  apply andb_true_iff in H as [C L].
  apply Z.eqb_eq in C. apply Z.leb_le in L. rewrite fexp64_eq in C.
  unfold Float.emax, Float.prec in L.
  pose proof (digits2_bounds m) as [_ U].
  assert (Zpos (digits2_pos m) <= 53) as D by lia.
  split; [|lia].
  eapply Z.lt_le_trans; [exact U|]. apply Z.pow_le_mono_r; lia.
Qed.

Lemma add_ten_finite (x : Float.float) :
  valid_binary Float.prec Float.emax x = true -> Float.is_finite x = true ->
  Float.is_finite (Float.add x Float.ten) = true.
Proof.
  destruct x as [s|s| |s m e]; try discriminate; intros V _.
  - destruct s; reflexivity.
  - simpl in V. apply bounded_spec in V as [Hm He].
    unfold Float.add, Float.ten, SFadd.
    set (ez := Z.min e (-49)).
    pose proof (shl_align_spec m e ez) as S1.
    pose proof (shl_align_spec 5629499534213120 (-49) ez) as S2.
    destruct (shl_align m e ez) as [a ea], (shl_align _ (-49) ez) as [b eb].
    destruct S1 as (Ea & _ & _ & Ea' & _), S2 as (Eb & _ & _ & Eb' & _).
    rewrite Ea' in Ea by (unfold ez; lia). rewrite Eb' in Eb by (unfold ez; lia).
    cbn [fst cond_Zopp].
    set (Q := 2 ^ (-49 - ez)) in *.
    assert (0 < Q) as PQ by (apply Z.pow_pos_nonneg; unfold ez; lia).
    assert (2 ^ (970 - ez) = 2 ^ 1019 * Q) as E970.
    { unfold Q. rewrite <- pow2_split by (unfold ez; lia). f_equal. lia. }
    assert (2 ^ (1024 - ez) = 2 ^ 54 * (2 ^ 1019 * Q)) as E1024.
    { rewrite <- E970, <- pow2_split by (unfold ez; lia). f_equal. lia. }
    assert (2 ^ (e - ez) <= 2 * (2 ^ 1019 * Q)) as Ee.
    { rewrite <- E970. rewrite <- Z.pow_succ_r by (unfold ez; lia).
      apply Z.pow_le_mono_r; unfold ez; lia. }
    assert (0 < 2 ^ (e - ez)) as Pe by (apply Z.pow_pos_nonneg; unfold ez; lia).
    assert (2 ^ 10 * Q <= 2 ^ 1019 * Q) as EK.
    { apply Z.mul_le_mono_nonneg_r; [lia|]. apply Z.pow_le_mono_r; lia. }
    set (KP := 2 ^ 1019 * Q) in *.
    assert (Zpos a + Zpos b < 2 ^ (1024 - ez) - 2 ^ (970 - ez)) as Hsum.
    { rewrite Ea, Eb, E1024, E970.
      assert (Zpos m * 2 ^ (e - ez) <= (2 ^ 53 - 1) * (2 * KP)) as Ha.
      { apply Z.mul_le_mono_nonneg; lia. }
      change (2 ^ 54) with 18014398509481984.
      change (2 ^ 53) with 9007199254740992 in Ha.
      change (2 ^ 10) with 1024 in EK.
      lia. }
    unfold binary_normalize.
    destruct (cond_Zopp s (Zpos a) + Zpos b) as [|q|q] eqn:Es; [reflexivity| |];
      apply binary_round_finite; try (unfold ez; lia);
      destruct s; cbn [cond_Zopp] in Es; lia.
Qed.

(** C3, as stated, fails for a float that is no number: [float()] accepts
    ["inf"], and the box then holds its name, which has no fraction
    digits. *)
Lemma get_boundary_box_names_infinity :
  get_boundary_box (VStr "inf") (VInt 400000)
  = Ok (Some "inf%2C400000.000000%2Cinf%2C400010.000000")
  /\ get_boundary_box (VStr "inf") (VInt 400000) <> Ok None
  /\ ~ six_fraction_digits "inf".
Proof.
  split; [vm_compute; reflexivity|]. split; [vm_compute; discriminate|].
  intros (sign & whole & frac & E & _ & _ & _ & _ & L).
  apply (f_equal String.length) in E. rewrite !length_app, L in E.
  cbn [String.length] in E. lia.
Qed.

(** C3, amended.  [get_boundary_box] depends on [x] and [y] alone.  When both
    convert to floats it returns the renderings, in the format [.6f], of
    [x], [y], [x + 10.0] and [y + 10.0], joined by ["%2C"]; for numbers
    (finite binary64 values) each of the four renderings is a numeral with
    exactly six digits after the point.  For 100000 and 400000 the result is
    ["100000.000000%2C400000.000000%2C100010.000000%2C400010.000000"].
    When [float()] rejects [x] with [ValueError] or [TypeError], or accepts
    [x] and so rejects [y], the result is [None]. *)
Theorem get_boundary_box_format (x y : value) :
  (forall x0 y0, to_float x = Ok x0 -> to_float y = Ok y0 ->
     get_boundary_box x y
     = Ok (Some (join "%2C" [Float.format_f6 x0; Float.format_f6 y0;
                             Float.format_f6 (Float.add x0 Float.ten);
                             Float.format_f6 (Float.add y0 Float.ten)]))
     /\ (is_number x0 = true -> is_number y0 = true ->
         Forall six_fraction_digits
                [Float.format_f6 x0; Float.format_f6 y0;
                 Float.format_f6 (Float.add x0 Float.ten);
                 Float.format_f6 (Float.add y0 Float.ten)]))
  /\ (not_a_number x -> get_boundary_box x y = Ok None)
  /\ (forall x0, to_float x = Ok x0 -> not_a_number y ->
        get_boundary_box x y = Ok None)
  /\ get_boundary_box (VInt 100000) (VInt 400000)
     = Ok (Some "100000.000000%2C400000.000000%2C100010.000000%2C400010.000000").
Proof.
  unfold get_boundary_box, not_a_number.
  split; [|split; [|split]].
  - intros x0 y0 -> ->. split; [reflexivity|].
    unfold is_number. intros Hx Hy.
    apply andb_true_iff in Hx as [Vx Fx]. apply andb_true_iff in Hy as [Vy Fy].
    repeat constructor; apply format_f6_six_fraction_digits;
      auto using add_ten_finite.
  - intros [-> | ->]; reflexivity.
  - intros x0 -> [-> | ->]; reflexivity.
  - vm_compute. reflexivity.
Qed.

(** At the coordinates of the example both conversions succeed and give
    numbers. *)
Lemma get_boundary_box_witness :
  get_boundary_box (VInt 100000) (VStr "400000")
  = Ok (Some (join "%2C"
                [Float.format_f6 (Float.of_decimal false 100000 0);
                 Float.format_f6 (Float.of_decimal false 400000 0);
                 Float.format_f6 (Float.add (Float.of_decimal false 100000 0) Float.ten);
                 Float.format_f6 (Float.add (Float.of_decimal false 400000 0) Float.ten)]))
  /\ Forall six_fraction_digits
        [Float.format_f6 (Float.of_decimal false 100000 0);
         Float.format_f6 (Float.of_decimal false 400000 0);
         Float.format_f6 (Float.add (Float.of_decimal false 100000 0) Float.ten);
         Float.format_f6 (Float.add (Float.of_decimal false 400000 0) Float.ten)].
Proof.
  destruct (proj1 (get_boundary_box_format (VInt 100000) (VStr "400000"))
                  (Float.of_decimal false 100000 0)
                  (Float.of_decimal false 400000 0)
                  ltac:(vm_compute; reflexivity)
                  ltac:(vm_compute; reflexivity)) as [E F].
  split; [exact E|]. apply F; vm_compute; reflexivity.
Defined.

(** Floats that are no numbers are rendered by their names. *)
Lemma get_boundary_box_non_finite :
  get_boundary_box (VFloat (S754_infinity false)) (VFloat S754_nan)
  = Ok (Some "inf%2Cnan%2Cinf%2Cnan").
Proof. vm_compute. reflexivity. Qed.

(** Inputs that are no numbers: a word, [None]. *)
Lemma get_boundary_box_rejects :
  get_boundary_box (VStr "abc") (VInt 400000) = Ok None
  /\ get_boundary_box (VInt 100000) VNone = Ok None.
Proof. vm_compute. split; reflexivity. Qed.

(** ** C2 and C9: the forecast *)

Lemma add_hours_eq (dt : datetime) (h : Z) :
  add_hours dt h
  = if in_bounds (wall dt + h * 3600 * US_PER_SECOND)
    then Ok (plus_hours dt h) else Raise OverflowError.
Proof. reflexivity. Qed.

Lemma add_hours_ok (dt t : datetime) (h : Z) :
  add_hours dt h = Ok t ->
  t = plus_hours dt h /\ in_bounds (wall dt + h * 3600 * US_PER_SECOND) = true.
Proof.
  rewrite add_hours_eq. destruct (in_bounds _); [|discriminate].
  intros [= <-]. auto.
Qed.

Lemma add_microseconds_bounds (dt t : datetime) (us : Z) :
  add_microseconds dt us = Ok t -> in_bounds (wall t) = true.
Proof.
  unfold add_microseconds. destruct (in_bounds _) eqn:B; [|discriminate].
  intros [= <-]. exact B.
Qed.

Lemma astimezone_bounds (tz : tzenv) (dt localdt : datetime) :
  astimezone_amsterdam tz dt = Ok localdt -> in_bounds (wall localdt) = true.
Proof.
  unfold astimezone_amsterdam.
  destruct (match utcoffset dt with Some o => Ok o | None => _ end) as [offset|];
    cbn [bind]; [|discriminate].
  destruct (add_microseconds dt _) as [utc|]; cbn [bind]; [|discriminate].
  destruct (add_microseconds utc _) as [l|] eqn:E; cbn [bind]; [|discriminate].
  intros [= <-]. cbn [wall]. eapply add_microseconds_bounds, E.
Qed.

Lemma in_bounds_between (w a b c : Z) :
  0 <= a <= b -> b <= c ->
  in_bounds w = true -> in_bounds (w + c * 3600 * US_PER_SECOND) = true ->
  in_bounds (w + b * 3600 * US_PER_SECOND) = true.
Proof.
  unfold in_bounds, US_PER_SECOND. intros Ha Hb H0 H1.
  apply andb_true_iff in H0 as [L0 U0]. apply andb_true_iff in H1 as [L1 U1].
  apply andb_true_iff. split; [apply Z.leb_le|apply Z.ltb_lt]; lia.
Qed.

Lemma get_forecast_at_offset_eq (self : Stookwijzer) (runtime : datetime)
  (offset : Z) (advice : bool) :
  get_forecast_at_offset self runtime offset advice
  = (t <- add_hours runtime offset ;; Ok (entry self t offset advice)).
Proof.
  unfold get_forecast_at_offset, entry.
  destruct (add_hours runtime offset) as [t|e]; [|reflexivity].
  unfold bind at 1. destruct advice; rewrite get_property_eq; reflexivity.
Qed.

Lemma for_append_map {A B : Type} (f : A -> result B) (g : A -> B) (xs : list A) :
  Forall (fun x => f x = Ok (g x)) xs -> for_append f xs = Ok (map g xs).
Proof.
  induction 1 as [|x xs Hx _ IH]; simpl; [reflexivity|].
  rewrite Hx, IH. reflexivity.
Qed.

Lemma for_append_ext {A B : Type} (f g : A -> result B) (xs : list A) :
  (forall x, f x = g x) -> for_append f xs = for_append g xs.
Proof.
  intros E. induction xs as [|x xs IH]; simpl; [reflexivity|].
  rewrite E, IH. reflexivity.
Qed.

Lemma timestamps_entries_hours (self : Stookwijzer) (localdt : datetime)
  (advice : bool) :
  timestamps (map (fun h => entry self (plus_hours localdt h) h advice) hours)
  = map (fun h => Some (VStr (isoformat (plus_hours localdt h)))) hours.
Proof.
  unfold timestamps. rewrite map_map. apply map_ext. reflexivity.
Qed.

(** The hours of the forecast, as [range(2, 25, 2)] yields them. *)
Lemma range_2_25_2 : range 2 25 2 = hours.
Proof. reflexivity. Qed.

Lemma get_forecast_array_eq (tz : tzenv) (self : Stookwijzer) (advice : bool) :
  get_forecast_array tz self advice
  = if negb (truthy (property_or_empty self "model_runtime")) then Ok None
    else
      dt <- strptime (property_or_empty self "model_runtime") ;;
      localdt <- astimezone_amsterdam tz dt ;;
      forecast <- for_append
                    (fun offset => t <- add_hours localdt offset ;;
                                   Ok (entry self t offset advice))
                    hours ;;
      Ok (Some forecast).
Proof.
  unfold get_forecast_array. rewrite get_property_eq, range_2_25_2.
  cbn [bind]. destruct (negb _); [reflexivity|].
  destruct (strptime _) as [dt|]; cbn [bind]; [|reflexivity].
  destruct (astimezone_amsterdam tz dt) as [localdt|]; cbn [bind]; [|reflexivity].
  rewrite (for_append_ext _ _ _ (fun offset =>
             get_forecast_at_offset_eq self localdt offset advice)).
  reflexivity.
Qed.

Lemma strptime_nonempty (runtime : string) (dt : datetime) :
  strptime runtime = Ok dt -> truthy runtime = true.
Proof. destruct runtime; [discriminate|reflexivity]. Qed.

Lemma hours_in_bounds (localdt last : datetime) :
  in_bounds (wall localdt) = true ->
  add_hours localdt 24 = Ok last ->
  Forall (fun h => add_hours localdt h = Ok (plus_hours localdt h)) hours.
Proof.
  intros B0 H24. apply add_hours_ok in H24 as [_ B24].
  assert (forall h, 0 <= h <= 24 -> add_hours localdt h = Ok (plus_hours localdt h))
    as Hh.
  { intros h Hr. rewrite add_hours_eq.
    rewrite (in_bounds_between (wall localdt) h h 24); auto; lia. }
  unfold hours. repeat constructor; apply Hh; lia.
Qed.

(** With a runtime that parses, localises and stays in range for a day,
    the forecast has one entry for each of the twelve hours. *)
Lemma forecast_in_range (tz : tzenv) (self : Stookwijzer) (advice : bool)
  (runtime : string) (dt localdt last : datetime) :
  get_property self "model_runtime" = Ok runtime ->
  strptime runtime = Ok dt ->
  astimezone_amsterdam tz dt = Ok localdt ->
  add_hours localdt 24 = Ok last ->
  get_forecast_array tz self advice
  = Ok (Some (map (fun h => entry self (plus_hours localdt h) h advice) hours)).
Proof.
  intros Hp Hs Ha H24.
  rewrite get_property_eq in Hp. injection Hp as Hp.
  rewrite get_forecast_array_eq, Hp, (strptime_nonempty _ _ Hs), Hs.
  cbn [negb bind]. rewrite Ha. cbn [bind].
  rewrite (for_append_map _ (fun h => entry self (plus_hours localdt h) h advice)).
  - reflexivity.
  - eapply Forall_impl; [|eapply hours_in_bounds; eauto using astimezone_bounds].
    intros h ->. reflexivity.
Qed.





(** The same example, evaluated: the first and the last timestamp. *)
Lemma forecast_example_timestamps :
  option_map (fun l => (hd None (timestamps l), last (timestamps l) None))
    match forecast_alert Samples.utc_system
            (Samples.holding
               (Samples.payload [("model_runtime", VStr "01-01-2024 00:00")])) with
    | Ok l => l
    | Raise _ => None
    end
  = Some (Some (VStr "2024-01-01T03:00:00+01:00"),
          Some (VStr "2024-01-02T01:00:00+01:00")).
Proof. vm_compute. reflexivity. Qed.

(** Past the last day of the calendar there is no datetime to add to:
    the range condition of C2 is needed. *)
Lemma forecast_out_of_range :
  get_forecast_array Samples.utc_system
    (Samples.holding (Samples.payload [("model_runtime", VStr "31-12-9999 00:00")]))
    true
  = Raise OverflowError.
Proof. vm_compute. reflexivity. Qed.

Lemma for_append_entries (self : Stookwijzer) (localdt : datetime) (xs : list Z) :
  match
    for_append (fun h => t <- add_hours localdt h ;; Ok (entry self t h true)) xs,
    for_append (fun h => t <- add_hours localdt h ;; Ok (entry self t h false)) xs
  with
  | Ok a, Ok b =>
      timestamps a = timestamps b
      /\ Forall (fun o => exists t : string, o = Some (VStr t)) (timestamps a)
  | Raise e, Raise e' => e = e'
  | _, _ => False
  end.
Proof.
  induction xs as [|h xs IH]; cbn [for_append]; [split; [reflexivity|constructor]|].
  destruct (add_hours localdt h) as [t|e]; cbn [bind]; [|reflexivity].
  destruct (for_append _ xs) as [a|ea], (for_append _ xs) as [b|eb];
    cbn [bind]; try contradiction; [|exact IH].
  destruct IH as [IH F]. unfold timestamps in *. cbn [map]. rewrite IH.
  split; [reflexivity|].
  constructor; [|rewrite <- IH; exact F].
  exists (isoformat t). reflexivity.
Qed.

Lemma nth_error_timestamps (l : list dict) (i : nat) :
  (i < List.length l)%nat ->
  Forall (fun o => exists t : string, o = Some (VStr t)) (timestamps l) ->
  exists t : string, nth_error (timestamps l) i = Some (Some (VStr t)).
Proof.
  intros Hi F.
  destruct (nth_error (timestamps l) i) as [o|] eqn:E.
  - rewrite Forall_forall in F.
    destruct (F o (nth_error_In _ _ E)) as [t ->]. eauto.
  - apply nth_error_None in E. unfold timestamps in E.
    rewrite length_map in E.
    exfalso. exact (Nat.lt_irrefl _ (Nat.lt_le_trans _ _ _ Hi E)).
Qed.

Lemma timestamps_length (a b : list dict) :
  timestamps a = timestamps b -> List.length a = List.length b.
Proof.
  intros E. apply (f_equal (@List.length _)) in E.
  unfold timestamps in E. now rewrite !length_map in E.
Qed.

(** C9.  The two forecast series, built by two separate calls, agree on
    their timestamps: either both calls give [None], or both raise the same
    exception, or both give lists of one length in which every entry has a
    string under ["datetime"], the same in both series index by index.  When ["model_runtime"] parses and the localised
    runtime with its next 24 hours is a datetime, both are lists, of
    length 12. *)
Theorem forecast_series_aligned (tz : tzenv) (self : Stookwijzer) :
  same_timestamps (forecast_advice tz self) (forecast_alert tz self)
  /\ (forall runtime dt localdt last,
        get_property self "model_runtime" = Ok runtime ->
        strptime runtime = Ok dt ->
        astimezone_amsterdam tz dt = Ok localdt ->
        add_hours localdt 24 = Ok last ->
        exists a b,
          forecast_advice tz self = Ok (Some a)
          /\ forecast_alert tz self = Ok (Some b)
          /\ List.length a = 12%nat /\ List.length b = 12%nat
          /\ forall i, (i < 12)%nat ->
               exists t : string,
                 nth_error (timestamps a) i = Some (Some (VStr t))
                 /\ nth_error (timestamps b) i = Some (Some (VStr t))).
Proof.
  unfold forecast_advice, forecast_alert. split.
  - rewrite !get_forecast_array_eq. unfold same_timestamps.
    destruct (negb _); [exact I|].
    destruct (strptime _) as [dt|]; cbn [bind]; [|reflexivity].
    destruct (astimezone_amsterdam tz dt) as [localdt|]; cbn [bind]; [|reflexivity].
    pose proof (for_append_entries self localdt hours) as H.
    destruct (for_append _ hours) as [a|ea], (for_append _ hours) as [b|eb];
      cbn [bind]; try contradiction; [|exact H].
    destruct H as [H F].
    split; [apply timestamps_length, H|]. intros i Hi.
    destruct (nth_error_timestamps a i Hi F) as [t E].
    exists t. split; [exact E|]. rewrite <- H. exact E.
  - intros runtime dt localdt last Hp Hs Ha H24.
    rewrite !(forecast_in_range tz self _ runtime dt localdt last) by assumption.
    do 2 eexists. split; [reflexivity|]. split; [reflexivity|].
    split; [reflexivity|]. split; [reflexivity|].
    intros i Hi. rewrite !timestamps_entries_hours.
    exists (isoformat (plus_hours localdt (nth i hours 0))).
    split;
      (rewrite nth_error_map, (nth_error_nth' hours 0) by exact Hi; reflexivity).
Qed.

(** On the example of the specification both series are there. *)
Lemma forecast_series_aligned_witness :
  exists a b,
    forecast_advice Samples.utc_system
      (Samples.holding (Samples.payload [("model_runtime", VStr "01-01-2024 00:00")]))
    = Ok (Some a)
    /\ forecast_alert Samples.utc_system
         (Samples.holding (Samples.payload [("model_runtime", VStr "01-01-2024 00:00")]))
       = Ok (Some b)
    /\ List.length a = 12%nat /\ List.length b = 12%nat
    /\ forall i, (i < 12)%nat ->
         exists t : string,
           nth_error (timestamps a) i = Some (Some (VStr t))
           /\ nth_error (timestamps b) i = Some (Some (VStr t)).
Proof.
  exact (proj2 (forecast_series_aligned Samples.utc_system
                  (Samples.holding
                     (Samples.payload [("model_runtime", VStr "01-01-2024 00:00")])))
               "01-01-2024 00:00"
               (mkdatetime 63839664000000000 None)
               (mkdatetime 63839667600000000 (Some 3600))
               (mkdatetime 63839754000000000 (Some 3600))
               ltac:(vm_compute; reflexivity) ltac:(vm_compute; reflexivity)
               ltac:(vm_compute; reflexivity) ltac:(vm_compute; reflexivity)).
Defined.

(* ================================================================== *)
(** * Further properties of the class and of the request handler *)
(* ================================================================== *)

Import Main.

(** ** The coordinate transformation *)

Lemma try_except_Exception {A : Type} (c h : result A) :
  try_except c Exception h
  = match c with
    | Ok a => Ok a
    | Raise _ => h
    end.
Proof. destruct c as [a|[]]; reflexivity. Qed.

(** X1.  [async_transform_coordinates] never raises and returns both
    coordinates or none: [(x, y)] exactly when the service answered with a
    JSON value whose ["x"] and ["y"] entries [float()] accepts, and
    [(None, None)] in every other case, be it a failed request, a missing
    entry or an entry that is no number. *)
Theorem transform_both_or_none (session : string -> option value)
  (latitude longitude : value) :
  exists r,
    async_transform_coordinates session latitude longitude = Ok r
    /\ (r = (None, None) \/ exists x y, r = (Some x, Some y))
    /\ (forall x y,
          r = (Some x, Some y) <->
          exists coordinates vx vy,
            session (transform_url latitude longitude) = Some coordinates
            /\ getitem coordinates (KStr "x") = Ok vx /\ to_float vx = Ok x
            /\ getitem coordinates (KStr "y") = Ok vy /\ to_float vy = Ok y).
Proof.
  unfold async_transform_coordinates.
  destruct (session _) as [c|].
  2:{ eexists. split; [reflexivity|]. split; [auto|].
      intros x y. split; [discriminate|]. intros (? & ? & ? & ? & _). discriminate. }
  rewrite try_except_Exception.
  destruct (getitem c (KStr "x")) as [vx|] eqn:Gx; cbn [bind].
  2:{ eexists. split; [reflexivity|]. split; [auto|].
      intros x y. split; [discriminate|].
      intros (c' & ? & ? & [= <-] & G & _). congruence. }
  destruct (to_float vx) as [x0|] eqn:Fx; cbn [bind].
  2:{ eexists. split; [reflexivity|]. split; [auto|].
      intros x y. split; [discriminate|].
      intros (c' & ? & ? & [= <-] & G & F & _). congruence. }
  destruct (getitem c (KStr "y")) as [vy|] eqn:Gy; cbn [bind].
  2:{ eexists. split; [reflexivity|]. split; [auto|].
      intros x y. split; [discriminate|].
      intros (c' & ? & ? & [= <-] & _ & _ & G & _). congruence. }
  destruct (to_float vy) as [y0|] eqn:Fy; cbn [bind].
  2:{ eexists. split; [reflexivity|]. split; [auto|].
      intros x y. split; [discriminate|].
      intros (c' & ? & ? & [= <-] & _ & _ & G & F). congruence. }
  eexists. split; [reflexivity|]. split; [eauto|].
  intros x y. split.
  - intros [= <- <-]. exists c, vx, vy. auto.
  - intros (c' & vx' & vy' & [= <-] & G1 & F1 & G2 & F2).
    congruence.
Qed.

(** ** Construction and update *)

Lemma box_truthy (x y : Float.float) : truthy (box x y) = true.
Proof. unfold box. cbn [join]. destruct (Float.format_f6 x); reflexivity. Qed.

Lemma init_floats (session : string -> option value) (x y : value)
  (x0 y0 : Float.float) :
  to_float x = Ok x0 -> to_float y = Ok y0 ->
  __init__ session x y = Ok (started session x0 y0).
Proof.
  intros Hx Hy. unfold __init__, get_boundary_box. rewrite Hx, Hy. reflexivity.
Qed.

Lemma fetched_set_current (self : Stookwijzer) a b t :
  fetched (set_current self a b t) = set_current (fetched self) a b t.
Proof. reflexivity. Qed.

Lemma fetched_fetched (self : Stookwijzer) : fetched (fetched self) = fetched self.
Proof. reflexivity. Qed.

Lemma property_set_current (self : Stookwijzer) a b t (prop : string) :
  property_or_empty (set_current self a b t) prop = property_or_empty self prop.
Proof. reflexivity. Qed.

(** X2.  An instance constructed from two values that [float()] accepts
    holds their boundary box, which is never the empty string; so each
    update asks the feature service, at the URL that ends in that box, and
    the payload it keeps is the answer, or [None] when the request failed. *)
Theorem constructed_with_numbers_asks_for_its_box
  (session : string -> option value) (x y : value) (x0 y0 : Float.float)
  (now : datetime) :
  to_float x = Ok x0 -> to_float y = Ok y0 ->
  exists self self',
    __init__ session x y = Ok self
    /\ _boundary_box self = Some (box x0 y0)
    /\ box x0 y0 <> ""
    /\ async_update now self = Ok self'
    /\ _stookwijzer self'
       = match session (url (box x0 y0)) with
         | Some payload => payload
         | None => VNone
         end.
Proof.
  intros Hx Hy. rewrite (init_floats session x y x0 y0 Hx Hy).
  exists (started session x0 y0). eexists. rewrite async_update_eq.
  split; [reflexivity|]. split; [reflexivity|].
  split; [apply truthy_true, box_truthy|]. split; [reflexivity|].
  assert (_stookwijzer (fetched (started session x0 y0))
          = match session (url (box x0 y0)) with
            | Some payload => payload
            | None => VNone
            end) as E.
  { unfold fetched, async_get_stookwijzer, started.
    cbn [_boundary_box _session set_stookwijzer _stookwijzer].
    rewrite box_truthy. reflexivity. }
  destruct (truthy _); exact E.
Qed.

Lemma constructed_with_numbers_witness :
  exists self self',
    __init__ (Samples.serves Samples.no_features) (VInt 100000) (VStr "400000")
    = Ok self
    /\ _boundary_box self
       = Some (box (Float.of_decimal false 100000 0) (Float.of_decimal false 400000 0))
    /\ box (Float.of_decimal false 100000 0) (Float.of_decimal false 400000 0) <> ""
    /\ async_update Samples.noon self = Ok self'
    /\ _stookwijzer self'
       = match Samples.serves Samples.no_features
                 (url (box (Float.of_decimal false 100000 0)
                           (Float.of_decimal false 400000 0))) with
         | Some payload => payload
         | None => VNone
         end.
Proof.
  exact (constructed_with_numbers_asks_for_its_box
           (Samples.serves Samples.no_features) (VInt 100000) (VStr "400000")
           (Float.of_decimal false 100000 0) (Float.of_decimal false 400000 0)
           Samples.noon
           ltac:(vm_compute; reflexivity) ltac:(vm_compute; reflexivity)).
Defined.

Lemma updates_without_box (session : string -> option value) (nows : list datetime) :
  updates nows (mkStookwijzer None None None None VNone session)
  = Ok (mkStookwijzer None None None None VNone session).
Proof.
  induction nows as [|now later IH]; cbn [updates]; [reflexivity|].
  rewrite async_update_eq.
  change (fetched (mkStookwijzer None None None None VNone session))
    with (mkStookwijzer None None None None VNone session).
  change (truthy (property_or_empty
                    (mkStookwijzer None None None None VNone session) "advies_0"))
    with false.
  cbn [bind]. exact IH.
Qed.

(** X3.  An instance constructed from a value that is no number has no
    boundary box, and no update ever changes it: whatever the session
    would answer, the service is not asked, the payload stays [None] and
    the current fields stay unset. *)
Theorem constructed_without_numbers_stays_empty
  (session : string -> option value) (x y : value) (nows : list datetime) :
  not_a_number x \/ (exists x0, to_float x = Ok x0 /\ not_a_number y) ->
  __init__ session x y = Ok (mkStookwijzer None None None None VNone session)
  /\ updates nows (mkStookwijzer None None None None VNone session)
     = Ok (mkStookwijzer None None None None VNone session).
Proof.
  intros H. split; [|apply updates_without_box].
  unfold __init__, get_boundary_box.
  destruct H as [[H|H]|(x0 & Hx & [H|H])].
  - rewrite H. reflexivity.
  - rewrite H. reflexivity.
  - rewrite Hx, H. reflexivity.
  - rewrite Hx, H. reflexivity.
Qed.

Lemma constructed_without_numbers_witness :
  __init__ (Samples.serves (Samples.payload [("advies_0", VStr "2")]))
           (VStr "abc") (VInt 400000)
  = Ok (mkStookwijzer None None None None VNone
          (Samples.serves (Samples.payload [("advies_0", VStr "2")])))
  /\ updates [Samples.noon; Samples.noon]
       (mkStookwijzer None None None None VNone
          (Samples.serves (Samples.payload [("advies_0", VStr "2")])))
     = Ok (mkStookwijzer None None None None VNone
             (Samples.serves (Samples.payload [("advies_0", VStr "2")]))).
Proof.
  apply (constructed_without_numbers_stays_empty
           (Samples.serves (Samples.payload [("advies_0", VStr "2")]))
           (VStr "abc") (VInt 400000) [Samples.noon; Samples.noon]).
  left. left. vm_compute. reflexivity.
Defined.

(** X4.  Updating twice is updating once: with the same answers of the
    service, the state after a second update at [now2] is the state a
    single update at [now2] gives. *)
Theorem async_update_twice (now1 now2 : datetime) (self self1 : Stookwijzer) :
  async_update now1 self = Ok self1 ->
  async_update now2 self1 = async_update now2 self.
Proof.
  rewrite !async_update_eq. intros [= <-].
  destruct (truthy (property_or_empty (fetched self) "advies_0")) eqn:T.
  - rewrite fetched_set_current, fetched_fetched, !property_set_current, T.
    reflexivity.
  - rewrite fetched_fetched, T. reflexivity.
Qed.

Lemma async_update_twice_witness :
  async_update Samples.noon
    (set_current (Samples.holding (Samples.payload [("advies_0", VStr "2")]))
                 "code_red" false (mkdatetime 0 None))
  = async_update Samples.noon
      (Samples.fresh (Samples.serves (Samples.payload [("advies_0", VStr "2")]))).
Proof.
  exact (async_update_twice (mkdatetime 0 None) Samples.noon
           (Samples.fresh (Samples.serves (Samples.payload [("advies_0", VStr "2")])))
           _ ltac:(vm_compute; reflexivity)).
Defined.

Lemma property_of_none (self : Stookwijzer) (prop : string) :
  _stookwijzer self = VNone -> property_or_empty self prop = "".
Proof. unfold property_or_empty, lookup. intros ->. reflexivity. Qed.

(** X5.  When the fetch yields nothing -- the request fails, the body is
    [null], or there is no boundary box -- the update keeps the current
    fields as they were, and every reading of the payload is empty: the
    three properties give the empty string and both forecasts give
    [None].  Nothing raises. *)
Theorem fetch_failure_leaves_empty_readings (now : datetime) (self : Stookwijzer)
  (tz : tzenv) :
  async_get_stookwijzer self = VNone ->
  exists self',
    async_update now self = Ok self'
    /\ _advice self' = _advice self
    /\ _alert self' = _alert self
    /\ _last_updated self' = _last_updated self
    /\ windspeed_bft self' = Ok (VStr "")
    /\ windspeed_ms self' = Ok (VStr "")
    /\ lki self' = Ok (VStr "")
    /\ forecast_advice tz self' = Ok None
    /\ forecast_alert tz self' = Ok None.
Proof.
  intros H. rewrite async_update_eq.
  assert (forall prop, property_or_empty (fetched self) prop = "") as P.
  { intros prop. apply property_of_none. exact H. }
  rewrite P. cbn [truthy].
  exists (fetched self). split; [reflexivity|].
  unfold windspeed_bft, windspeed_ms, lki, forecast_advice, forecast_alert,
    get_forecast_array.
  rewrite !get_property_eq, !P. cbn [bind truthy negb].
  repeat split; reflexivity.
Qed.

Lemma fetch_failure_witness :
  exists self',
    async_update Samples.noon
      (set_current (Samples.fresh Samples.times_out) "code_red" true Samples.noon)
    = Ok self'
    /\ _advice self' = Some "code_red"
    /\ _alert self' = Some true
    /\ _last_updated self' = Some Samples.noon
    /\ windspeed_bft self' = Ok (VStr "")
    /\ windspeed_ms self' = Ok (VStr "")
    /\ lki self' = Ok (VStr "")
    /\ forecast_advice Samples.utc_system self' = Ok None
    /\ forecast_alert Samples.utc_system self' = Ok None.
Proof.
  exact (fetch_failure_leaves_empty_readings Samples.noon
           (set_current (Samples.fresh Samples.times_out) "code_red" true Samples.noon)
           Samples.utc_system eq_refl).
Defined.

Lemma in_codes (s : string) : In (get_color s) codes.
Proof.
  unfold get_color, codes.
  destruct (String.eqb s "0"); [simpl; auto|].
  destruct (String.eqb s "1"); [simpl; auto|].
  destruct (String.eqb s "2"); simpl; auto.
Qed.

Lemma async_update_keeps_all_or_nothing (now : datetime) (self self' : Stookwijzer) :
  all_or_nothing self -> async_update now self = Ok self' -> all_or_nothing self'.
Proof.
  intros Inv. rewrite async_update_eq. intros [= <-].
  destruct (truthy _).
  - right. do 3 eexists. cbn [set_current _advice _alert _last_updated].
    repeat split. apply in_codes.
  - exact Inv.
Qed.

Lemma updates_total (nows : list datetime) (self : Stookwijzer) :
  exists self', updates nows self = Ok self'.
Proof.
  revert self. induction nows as [|now later IH]; intros self; cbn [updates].
  - eauto.
  - rewrite async_update_eq. cbn [bind]. apply IH.
Qed.

(** X6.  An invariant of every instance: from construction on and through
    any number of updates, no update raises, and the three current fields
    are either all unset or all set, the advice then being one of the four
    colour codes ["code_yellow"], ["code_orange"], ["code_red"], [""]. *)
Theorem current_fields_all_or_nothing (session : string -> option value)
  (x y : value) (self : Stookwijzer) (nows : list datetime) :
  __init__ session x y = Ok self ->
  exists self', updates nows self = Ok self' /\ all_or_nothing self'.
Proof.
  intros Hinit.
  assert (all_or_nothing self) as Inv.
  { unfold __init__ in Hinit. destruct (get_boundary_box x y); [|discriminate].
    injection Hinit as <-. left. auto. }
  clear Hinit. revert self Inv.
  induction nows as [|now later IH]; intros self Inv; cbn [updates].
  - eauto.
  - destruct (updates_total [now] self) as [s1 H1]. cbn [updates] in H1.
    destruct (async_update now self) as [s|e] eqn:E; [|discriminate].
    cbn [bind]. apply IH. eapply async_update_keeps_all_or_nothing; eauto.
Qed.

Lemma current_fields_witness :
  exists self',
    updates [Samples.noon; Samples.noon]
      (started (Samples.serves (Samples.payload [("advies_0", VStr "7")]))
               (Float.of_decimal false 100000 0) (Float.of_decimal false 400000 0))
    = Ok self'
    /\ all_or_nothing self'.
Proof.
  exact (current_fields_all_or_nothing
           (Samples.serves (Samples.payload [("advies_0", VStr "7")]))
           (VInt 100000) (VInt 400000) _ [Samples.noon; Samples.noon]
           ltac:(vm_compute; reflexivity)).
Defined.

(** ** The readings *)

(** X7.  [lki] never raises and returns what [get_property] reads for
    ["lki"], as a string and unparsed: [str] of the value when it is
    present, so ["5"] for the number 5, and the empty string, not [None],
    when it is absent. *)
Theorem lki_is_the_property_string (self : Stookwijzer) :
  exists p,
    get_property self "lki" = Ok p
    /\ lki self = Ok (VStr p)
    /\ lki self <> Ok VNone
    /\ (forall v, lookup self "lki" = Ok v -> p = str v)
    /\ (forall n, lookup self "lki" = Ok (VInt n) -> lki self = Ok (VStr (str_int n)))
    /\ (forall e, lookup self "lki" = Raise e -> p = "").
Proof.
  unfold lki. rewrite get_property_eq. cbn [bind].
  eexists. split; [reflexivity|]. split; [reflexivity|].
  split; [discriminate|]. unfold property_or_empty.
  split; [intros v ->; reflexivity|].
  split; [intros n ->; reflexivity|intros e ->; reflexivity].
Qed.

Lemma of_string_raises (s : string) (e : exn) :
  Float.of_string s = Raise e -> e = ValueError.
Proof.
  unfold Float.of_string.
  destruct (Float.strip_underscores _ _); [|congruence].
  destruct (Float.parse_finite _); [discriminate|].
  destruct (Float.parse_inf_nan _); [discriminate|congruence].
Qed.

(** X8.  The three outcomes of [windspeed_ms]: the empty string, exactly
    when ["wind"] reads empty; a float, when ["wind"] reads as a numeral
    (["0"] gives 0.0, it does not count as absent); [ValueError] otherwise.
    It never returns [None] or a non-empty string, and raises nothing but
    [ValueError]. *)
Theorem windspeed_ms_outcomes (self : Stookwijzer) :
  exists wind,
    get_property self "wind" = Ok wind
    /\ ((wind = "" /\ windspeed_ms self = Ok (VStr ""))
        \/ (wind <> ""
            /\ exists f, Float.of_string wind = Ok f
                         /\ windspeed_ms self = Ok (VFloat (Float.round1 f)))
        \/ (wind <> ""
            /\ Float.of_string wind = Raise ValueError
            /\ windspeed_ms self = Raise ValueError))
    /\ (wind = "0" -> windspeed_ms self = Ok (VFloat (S754_zero false))).
Proof.
  unfold windspeed_ms. rewrite get_property_eq. cbn [bind].
  exists (property_or_empty self "wind"). split; [reflexivity|].
  destruct (property_or_empty self "wind") as [|c w] eqn:E.
  - split; [left; auto|discriminate].
  - cbn [truthy]. split.
    + right. destruct (Float.of_string (String c w)) as [f|e] eqn:F; cbn [bind].
      * left. split; [discriminate|eauto].
      * right. rewrite (of_string_raises _ _ F). repeat split. discriminate.
    + intros ->. vm_compute. reflexivity.
Qed.

(** X9.  Of several features only the first is read: the others, and
    every other key of the payload, change nothing of what [get_property]
    returns. *)
Theorem get_property_reads_first_feature (self : Stookwijzer) (d : dict)
  (feature : value) (others : list value) (prop : string) :
  _stookwijzer self = VDict d ->
  dict_get "features" d = Some (VList (feature :: others)) ->
  get_property self prop
  = get_property (set_stookwijzer self (VDict [("features", VList [feature])])) prop.
Proof.
  intros Hp Hf. rewrite !get_property_eq. unfold property_or_empty, lookup.
  rewrite Hp. cbn [getitem set_stookwijzer _stookwijzer]. rewrite Hf. reflexivity.
Qed.

Lemma get_property_first_feature_witness :
  get_property
    (Samples.holding
       (VDict [("type", VStr "FeatureCollection");
               ("features", VList [VDict [("properties", VDict [("wind", VStr "1")])];
                                   VDict [("properties", VDict [("wind", VStr "2")])]])]))
    "wind"
  = get_property
      (set_stookwijzer
         (Samples.holding
            (VDict [("type", VStr "FeatureCollection");
                    ("features", VList [VDict [("properties", VDict [("wind", VStr "1")])];
                                        VDict [("properties", VDict [("wind", VStr "2")])]])]))
         (VDict [("features", VList [VDict [("properties", VDict [("wind", VStr "1")])]])]))
      "wind".
Proof.
  apply (get_property_reads_first_feature
           (Samples.holding
              (VDict [("type", VStr "FeatureCollection");
                      ("features",
                       VList [VDict [("properties", VDict [("wind", VStr "1")])];
                              VDict [("properties", VDict [("wind", VStr "2")])]])]))
           [("type", VStr "FeatureCollection");
            ("features",
             VList [VDict [("properties", VDict [("wind", VStr "1")])];
                    VDict [("properties", VDict [("wind", VStr "2")])]])]
           (VDict [("properties", VDict [("wind", VStr "1")])])
           [VDict [("properties", VDict [("wind", VStr "2")])]]
           "wind"); reflexivity.
Defined.

(** ** The forecast *)

Lemma for_append_forall {A B : Type} (f : A -> result B) (P : B -> Prop)
  (xs : list A) (ys : list B) :
  (forall x y, f x = Ok y -> P y) ->
  for_append f xs = Ok ys -> List.length ys = List.length xs /\ Forall P ys.
Proof.
  intros Hf. revert ys. induction xs as [|x xs IH]; intros ys; cbn [for_append].
  - intros [= <-]. auto.
  - destruct (f x) as [y|] eqn:E; cbn [bind]; [|discriminate].
    destruct (for_append f xs) as [l|]; cbn [bind]; [|discriminate].
    intros [= <-]. destruct (IH l eq_refl) as [L F].
    split; [simpl; congruence|]. constructor; eauto.
Qed.

Lemma for_append_raises {A B : Type} (f : A -> result B) (xs : list A) (e : exn) :
  for_append f xs = Raise e -> exists x, In x xs /\ f x = Raise e.
Proof.
  induction xs as [|x xs IH]; cbn [for_append]; [discriminate|].
  destruct (f x) as [y|e'] eqn:E; cbn [bind].
  - destruct (for_append f xs) as [l|e'']; cbn [bind]; [discriminate|].
    intros [= <-]. destruct (IH eq_refl) as (x' & I & F).
    exists x'. split; [right; exact I|exact F].
  - intros [= <-]. exists x. split; [left; reflexivity|exact E].
Qed.

Lemma entry_has_shape (self : Stookwijzer) (t : datetime) (h : Z) (advice : bool) :
  entry_shape advice (entry self t h advice).
Proof.
  unfold entry_shape, entry. exists (isoformat t).
  destruct advice; eexists; [split; [reflexivity|apply in_codes]|reflexivity].
Qed.

(** X10.  Whenever [get_forecast_array] returns a list, the list has
    exactly 12 entries, and each entry is a dictionary of two items: the
    timestamp under ["datetime"], then one of the four colour codes under
    ["advice"], or a truth value under ["alert"]. *)
Theorem forecast_has_twelve_shaped_entries (tz : tzenv) (self : Stookwijzer)
  (advice : bool) (forecast : list dict) :
  get_forecast_array tz self advice = Ok (Some forecast) ->
  List.length forecast = 12%nat /\ Forall (entry_shape advice) forecast.
Proof.
  rewrite get_forecast_array_eq.
  destruct (negb _); [discriminate|].
  destruct (strptime _) as [dt|]; cbn [bind]; [|discriminate].
  destruct (astimezone_amsterdam tz dt) as [localdt|]; cbn [bind]; [|discriminate].
  destruct (for_append _ hours) as [l|] eqn:E; cbn [bind]; [|discriminate].
  intros [= <-].
  apply (for_append_forall _ (entry_shape advice)) in E; [exact E|].
  intros h d. destruct (add_hours localdt h) as [t|]; cbn [bind]; [|discriminate].
  intros [= <-]. apply entry_has_shape.
Qed.

Lemma forecast_shape_witness :
  List.length
    (map (fun h => entry (Samples.holding
                            (Samples.payload [("model_runtime", VStr "01-01-2024 00:00")]))
                         (plus_hours (mkdatetime 63839667600000000 (Some 3600)) h) h true)
         hours) = 12%nat
  /\ Forall (entry_shape true)
       (map (fun h => entry (Samples.holding
                               (Samples.payload [("model_runtime", VStr "01-01-2024 00:00")]))
                            (plus_hours (mkdatetime 63839667600000000 (Some 3600)) h) h true)
            hours).
Proof.
  exact (forecast_has_twelve_shaped_entries Samples.utc_system
           (Samples.holding (Samples.payload [("model_runtime", VStr "01-01-2024 00:00")]))
           true _ ltac:(vm_compute; reflexivity)).
Defined.

Lemma strptime_raises (s : string) (e : exn) : strptime s = Raise e -> e = ValueError.
Proof.
  unfold strptime, make.
  destruct (rmatch _ _ _ _) as [[[|] g]|]; try congruence.
  destruct (_ && _); congruence.
Qed.

Lemma add_microseconds_raises (dt : datetime) (us : Z) (e : exn) :
  add_microseconds dt us = Raise e -> e = OverflowError.
Proof. unfold add_microseconds. destruct (in_bounds _); congruence. Qed.

Lemma local_raises (tz : tzenv) (u : Z) (e : exn) :
  local tz u = Raise e -> e = ValueError.
Proof. unfold local. destruct (in_bounds _); congruence. Qed.

Lemma raises_bind {A B : Type} (c : result A) (k : A -> result B)
  (P : exn -> Prop) :
  (forall e, c = Raise e -> P e) ->
  (forall a e, k a = Raise e -> P e) ->
  forall e, bind c k = Raise e -> P e.
Proof.
  destruct c as [a|e0]; cbn [bind]; intros Hc Hk e; [apply Hk|].
  intros [= <-]. apply Hc. reflexivity.
Qed.

Ltac raises_ValueError tz :=
  repeat first
    [ apply (raises_bind _ _ (fun e => e = ValueError)); [|intro]
    | exact (local_raises tz _)
    | match goal with
      | |- forall e, (if ?c then _ else _) = Raise e -> _ => destruct c
      end
    | (intros ? [= <-]; reflexivity)
    | (intros ? [=])
    | progress cbv beta zeta ].

Lemma local_timezone_raises (tz : tzenv) (dt : datetime) (e : exn) :
  local_timezone tz dt = Raise e -> e = ValueError.
Proof.
  revert e. unfold local_timezone, local_to_seconds. raises_ValueError tz.
Qed.

Lemma strptime_naive (s : string) (dt : datetime) :
  strptime s = Ok dt -> utcoffset dt = None.
Proof.
  unfold strptime, make.
  destruct (rmatch _ _ _ _) as [[[|] g]|]; try discriminate.
  destruct (_ && _); [|discriminate]. intros [= <-]. reflexivity.
Qed.

(** What [astimezone] raises on a naive datetime: [ValueError] from the
    search for the system's offset, [OverflowError] from the additions
    after it. *)
Lemma astimezone_raises (tz : tzenv) (dt : datetime) (e : exn) :
  utcoffset dt = None ->
  astimezone_amsterdam tz dt = Raise e ->
  (e = ValueError /\ local_timezone tz dt = Raise ValueError)
  \/ (e = OverflowError /\ exists offset, local_timezone tz dt = Ok offset).
Proof.
  unfold astimezone_amsterdam. intros ->.
  destruct (local_timezone tz dt) as [offset|e0] eqn:L; cbn [bind].
  - intros H. right. split; [|eauto]. revert H.
    destruct (add_microseconds dt _) as [utc|] eqn:E1; cbn [bind].
    + destruct (add_microseconds utc _) as [l|] eqn:E2; cbn [bind]; [discriminate|].
      intros [= <-]. eapply add_microseconds_raises, E2.
    + intros [= <-]. eapply add_microseconds_raises, E1.
  - intros [= <-]. left. rewrite (local_timezone_raises _ _ _ L). auto.
Qed.

(** X11.  [get_forecast_array] raises nothing but [ValueError] and
    [OverflowError].  It raises [ValueError] exactly when ["model_runtime"]
    reads as a non-empty string that either is not in the format
    day-month-year hour:minute, or is in the format while the search for
    the offset of the system's zone leaves the years 1 to 9999; such a
    runtime does not give [None].  It raises [OverflowError] only when the
    runtime parses and the offset is found, and a timestamp would leave the
    range of [datetime]. *)
Theorem get_forecast_array_raises (tz : tzenv) (self : Stookwijzer) (advice : bool) :
  exists runtime,
    get_property self "model_runtime" = Ok runtime
    /\ (get_forecast_array tz self advice = Raise ValueError
        <-> runtime <> ""
            /\ (strptime runtime = Raise ValueError
                \/ exists dt, strptime runtime = Ok dt
                              /\ local_timezone tz dt = Raise ValueError))
    /\ (forall e, get_forecast_array tz self advice = Raise e ->
          e = ValueError
          \/ (e = OverflowError
              /\ exists dt offset, strptime runtime = Ok dt
                                   /\ local_timezone tz dt = Ok offset)).
Proof.
  rewrite get_property_eq, get_forecast_array_eq.
  exists (property_or_empty self "model_runtime"). split; [reflexivity|].
  destruct (property_or_empty self "model_runtime") as [|c r] eqn:E.
  { cbn [truthy negb]. split; [split|]; try discriminate.
    intros [H _]. contradiction. }
  cbn [truthy negb].
  destruct (strptime (String c r)) as [dt|e0] eqn:S; cbn [bind].
  - pose proof (strptime_naive _ _ S) as N.
    assert (forall e,
              (localdt <- astimezone_amsterdam tz dt ;;
               forecast <- for_append
                             (fun offset => t <- add_hours localdt offset ;;
                                            Ok (entry self t offset advice)) hours ;;
               Ok (Some forecast)) = Raise e ->
              (e = ValueError /\ local_timezone tz dt = Raise ValueError)
              \/ (e = OverflowError
                  /\ exists offset, local_timezone tz dt = Ok offset)) as R.
    { intros e.
      destruct (astimezone_amsterdam tz dt) as [localdt|e1] eqn:A; cbn [bind].
      - destruct (for_append _ hours) as [l|e2] eqn:F; cbn [bind]; [discriminate|].
        intros [= <-]. right. split.
        + apply for_append_raises in F as (h & _ & F).
          unfold add_hours in F.
          destruct (add_microseconds localdt _) as [t|e3] eqn:M; cbn [bind] in F;
            [discriminate|].
          injection F as <-. eapply add_microseconds_raises, M.
        + revert A. unfold astimezone_amsterdam. rewrite N.
          destruct (local_timezone tz dt) as [offset|]; cbn [bind];
            [eauto|discriminate].
      - intros [= <-]. eapply astimezone_raises; eauto. }
    split.
    + split.
      * intros H. split; [discriminate|]. right. exists dt. split; [reflexivity|].
        destruct (R _ H) as [[_ L]|[D _]]; [exact L|discriminate].
      * intros [_ [H|(dt' & [= <-] & L)]]; [discriminate|].
        unfold astimezone_amsterdam. rewrite N, L. reflexivity.
    + intros e H. destruct (R _ H) as [[-> _]|[-> (offset & L)]]; [auto|].
      right. split; [reflexivity|]. eauto.
  - rewrite (strptime_raises _ _ S). split.
    + split; [intros _; split; [discriminate|auto]|reflexivity].
    + intros e [= <-]. auto.
Qed.

(** A runtime written year first is rejected, the forecast raises. *)
Lemma forecast_rejects_iso_runtime :
  get_forecast_array Samples.utc_system
    (Samples.holding (Samples.payload [("model_runtime", VStr "2024-01-01 00:00")]))
    true
  = Raise ValueError.
Proof. vm_compute. reflexivity. Qed.

(** X12.  What the entries carry: with a runtime that parses and stays in
    range, the entry for the hour [h] -- the [i]-th of 2, 4, ..., 24 --
    holds the colour of the property ["advies_<h>"], or whether the
    property ["alert_<h>"] reads ["1"].  A property that is missing counts
    as the empty string: the colour is then [""], the alert [False], and
    nothing is raised. *)
Theorem forecast_entries_read_their_hour (tz : tzenv) (self : Stookwijzer)
  (advice : bool) (runtime : string) (dt localdt last : datetime) :
  get_property self "model_runtime" = Ok runtime ->
  strptime runtime = Ok dt ->
  astimezone_amsterdam tz dt = Ok localdt ->
  add_hours localdt 24 = Ok last ->
  exists forecast,
    get_forecast_array tz self advice = Ok (Some forecast)
    /\ forall i h, nth_error [2; 4; 6; 8; 10; 12; 14; 16; 18; 20; 22; 24] i = Some h ->
         exists p,
           get_property self ((if advice then "advies_" else "alert_") ++ str_int h)
           = Ok p
           /\ nth_error forecast i
              = Some [("datetime", VStr (isoformat (plus_hours localdt h)));
                      if advice then ("advice", VStr (get_color p))
                      else ("alert", VBool (String.eqb p "1"))]
           /\ (lookup self ((if advice then "advies_" else "alert_") ++ str_int h)
               = Raise KeyError -> p = "").
Proof.
  intros Hp Hs Ha H24.
  rewrite (forecast_in_range tz self advice runtime dt localdt last Hp Hs Ha H24).
  eexists. split; [reflexivity|].
  intros i h Hi. change [2; 4; 6; 8; 10; 12; 14; 16; 18; 20; 22; 24] with hours in Hi.
  rewrite get_property_eq. eexists. split; [reflexivity|].
  split.
  - rewrite nth_error_map, Hi. unfold entry. destruct advice; reflexivity.
  - unfold property_or_empty. intros ->. reflexivity.
Qed.

Lemma forecast_entries_witness :
  exists forecast,
    get_forecast_array Samples.utc_system
      (Samples.holding (Samples.payload [("model_runtime", VStr "01-01-2024 00:00");
                                         ("advies_4", VStr "2")]))
      true = Ok (Some forecast)
    /\ forall i h, nth_error [2; 4; 6; 8; 10; 12; 14; 16; 18; 20; 22; 24] i = Some h ->
         exists p,
           get_property
             (Samples.holding (Samples.payload [("model_runtime", VStr "01-01-2024 00:00");
                                                ("advies_4", VStr "2")]))
             ("advies_" ++ str_int h) = Ok p
           /\ nth_error forecast i
              = Some [("datetime",
                       VStr (isoformat
                               (plus_hours (mkdatetime 63839667600000000 (Some 3600)) h)));
                      ("advice", VStr (get_color p))]
           /\ (lookup
                 (Samples.holding
                    (Samples.payload [("model_runtime", VStr "01-01-2024 00:00");
                                      ("advies_4", VStr "2")]))
                 ("advies_" ++ str_int h) = Raise KeyError -> p = "").
Proof.
  exact (forecast_entries_read_their_hour Samples.utc_system
           (Samples.holding (Samples.payload [("model_runtime", VStr "01-01-2024 00:00");
                                              ("advies_4", VStr "2")]))
           true "01-01-2024 00:00"
           (mkdatetime 63839664000000000 None)
           (mkdatetime 63839667600000000 (Some 3600))
           (mkdatetime 63839754000000000 (Some 3600))
           ltac:(vm_compute; reflexivity) ltac:(vm_compute; reflexivity)
           ltac:(vm_compute; reflexivity) ltac:(vm_compute; reflexivity)).
Defined.

(** ** The request handler *)

Lemma transform_never_raises (session : string -> option value)
  (latitude longitude : value) :
  exists r, async_transform_coordinates session latitude longitude = Ok r.
Proof.
  unfold async_transform_coordinates.
  destruct (session _); [|eauto]. rewrite try_except_Exception.
  destruct (_ <- _ ;; _); eauto.
Qed.

Lemma attempt_eq (session : string -> option value) (tz : tzenv) (now : datetime)
  (latitude longitude : Float.float) :
  attempt session tz now latitude longitude
  = match async_transform_coordinates session (VFloat latitude) (VFloat longitude) with
    | Ok (Some x, Some y) =>
        if truthy (property_or_empty (fetched (started session x y)) "advies_0")
        then lift (response_data tz
                     (set_current (fetched (started session x y))
                        (get_color (property_or_empty (fetched (started session x y))
                                                      "advies_0"))
                        (String.eqb (property_or_empty (fetched (started session x y))
                                                       "alert_0") "1")
                        now)
                     latitude longitude x y)
        else Raised (HTTPException 404 "No data available for these coordinates")
    | Ok _ => Raised (HTTPException 400 "Failed to transform coordinates")
    | Raise e => Raised (Error e)
    end.
Proof.
  unfold attempt.
  destruct (async_transform_coordinates _ _ _) as [[[x|] [y|]]|e];
    cbn [lift tbind]; try reflexivity.
  rewrite (init_floats session (VFloat x) (VFloat y) x y eq_refl eq_refl).
  cbn [lift tbind]. rewrite async_update_eq.
  destruct (truthy _); reflexivity.
Qed.

(** X13.  Every failure of [get_stookwijzer_data] is answered with status
    500.  The two [HTTPException]s raised under [try], 400 when the
    transformation fails and 404 when no advice is set after the update,
    are caught by [except Exception] like any other exception and raised
    again with status 500, their text as the detail: no request is ever
    answered with 400 or with 404. *)
Theorem handler_answers_500_for_every_failure (session : string -> option value)
  (tz : tzenv) (now : datetime) (latitude longitude : Float.float) :
  (forall status_code cause,
     get_stookwijzer_data session tz now latitude longitude
     = Status status_code cause -> status_code = 500)
  /\ (async_transform_coordinates session (VFloat latitude) (VFloat longitude)
      = Ok (None, None) ->
      get_stookwijzer_data session tz now latitude longitude
      = Status 500 (HTTPException 400 "Failed to transform coordinates"))
  /\ (forall x y,
        async_transform_coordinates session (VFloat latitude) (VFloat longitude)
        = Ok (Some x, Some y) ->
        get_property (fetched (started session x y)) "advies_0" = Ok "" ->
        get_stookwijzer_data session tz now latitude longitude
        = Status 500 (HTTPException 404 "No data available for these coordinates")).
Proof.
  unfold get_stookwijzer_data. split; [|split].
  - intros code cause. destruct (attempt _ _ _ _ _); congruence.
  - intros H. rewrite attempt_eq, H. reflexivity.
  - intros x y H. rewrite get_property_eq. intros [= P].
    rewrite attempt_eq, H, P. reflexivity.
Qed.

(** Outside the covered area the service answers without features, and
    the request ends with status 500, not 404. *)
Lemma handler_witness :
  get_stookwijzer_data (Samples.service Samples.planar Samples.no_features)
    Samples.utc_system Samples.noon Samples.latitude Samples.longitude
  = Status 500 (HTTPException 404 "No data available for these coordinates").
Proof.
  exact (proj2 (proj2 (handler_answers_500_for_every_failure
           (Samples.service Samples.planar Samples.no_features)
           Samples.utc_system Samples.noon Samples.latitude Samples.longitude))
           (Float.of_decimal false 155000 0) (Float.of_decimal false 463000 0)
           ltac:(vm_compute; reflexivity) ltac:(vm_compute; reflexivity)).
Defined.

Lemma response_data_items (tz : tzenv) (sw : Stookwijzer)
  (latitude longitude x y : Float.float) (data : value) :
  response_data tz sw latitude longitude x y = Ok data ->
  exists items,
    data = VDict items
    /\ dict_get "advice" items = Some (of_option VStr (advice sw))
    /\ dict_get "alert" items = Some (of_option VBool (alert sw))
    /\ dict_get "last_updated" items
       = Some (of_option (fun t => VStr (isoformat t)) (last_updated sw))
    /\ dict_get "coordinates" items
       = Some (VDict [("original", VDict [("latitude", VFloat latitude);
                                          ("longitude", VFloat longitude)]);
                      ("transformed", VDict [("x", VFloat x); ("y", VFloat y)])]).
Proof.
  unfold response_data.
  destruct (windspeed_bft sw); cbn [bind]; [|discriminate].
  destruct (windspeed_ms sw); cbn [bind]; [|discriminate].
  destruct (lki sw); cbn [bind]; [|discriminate].
  destruct (forecast_advice tz sw); cbn [bind]; [|discriminate].
  destruct (forecast_alert tz sw); cbn [bind]; [|discriminate].
  intros [= <-]. eexists. split; [reflexivity|]. repeat split; reflexivity.
Qed.

(** X14.  A response that is not an error always carries the current
    fields: the transformation succeeded, ["advice"] is one of the four
    colour codes (never [null]), ["alert"] is a truth value,
    ["last_updated"] is the clock of this request in ISO format, and
    ["coordinates"] holds the coordinates as given and as transformed. *)
Theorem handler_success_carries_current_fields (session : string -> option value)
  (tz : tzenv) (now : datetime) (latitude longitude : Float.float) (data : value) :
  get_stookwijzer_data session tz now latitude longitude = Body data ->
  exists x y items c b,
    async_transform_coordinates session (VFloat latitude) (VFloat longitude)
    = Ok (Some x, Some y)
    /\ data = VDict items
    /\ dict_get "advice" items = Some (VStr c) /\ In c codes
    /\ dict_get "alert" items = Some (VBool b)
    /\ dict_get "last_updated" items = Some (VStr (isoformat now))
    /\ dict_get "coordinates" items
       = Some (VDict [("original", VDict [("latitude", VFloat latitude);
                                          ("longitude", VFloat longitude)]);
                      ("transformed", VDict [("x", VFloat x); ("y", VFloat y)])]).
Proof.
  unfold get_stookwijzer_data. rewrite attempt_eq.
  destruct (async_transform_coordinates _ _ _) as [[[x|] [y|]]|e]; try discriminate.
  destruct (truthy _); [|discriminate].
  destruct (response_data _ _ _ _ _ _) as [d|e] eqn:R; cbn [lift]; [|discriminate].
  intros [= <-].
  destruct (response_data_items _ _ _ _ _ _ _ R) as (items & -> & A & B & C & D).
  exists x, y, items. do 2 eexists. split; [reflexivity|]. split; [reflexivity|].
  split; [exact A|]. split; [apply in_codes|].
  split; [exact B|]. split; [exact C|exact D].
Qed.

Lemma handler_success_witness :
  exists x y items c b,
    async_transform_coordinates
      (Samples.service Samples.planar
         (Samples.payload [("advies_0", VStr "1"); ("alert_0", VStr "0");
                           ("wind", VStr "4.27")]))
      (VFloat Samples.latitude) (VFloat Samples.longitude)
    = Ok (Some x, Some y)
    /\ match get_stookwijzer_data
               (Samples.service Samples.planar
                  (Samples.payload [("advies_0", VStr "1"); ("alert_0", VStr "0");
                                    ("wind", VStr "4.27")]))
               Samples.utc_system Samples.noon Samples.latitude Samples.longitude with
       | Body data => data
       | Status _ _ => VNone
       end = VDict items
    /\ dict_get "advice" items = Some (VStr c) /\ In c codes
    /\ dict_get "alert" items = Some (VBool b)
    /\ dict_get "last_updated" items = Some (VStr (isoformat Samples.noon))
    /\ dict_get "coordinates" items
       = Some (VDict [("original", VDict [("latitude", VFloat Samples.latitude);
                                          ("longitude", VFloat Samples.longitude)]);
                      ("transformed", VDict [("x", VFloat x); ("y", VFloat y)])]).
Proof.
  exact (handler_success_carries_current_fields
           (Samples.service Samples.planar
              (Samples.payload [("advies_0", VStr "1"); ("alert_0", VStr "0");
                                ("wind", VStr "4.27")]))
           Samples.utc_system Samples.noon Samples.latitude Samples.longitude
           _ ltac:(vm_compute; reflexivity)).
Defined.

Lemma windspeed_bft_eq (self : Stookwijzer) :
  windspeed_bft self = Ok (VStr (property_or_empty self "wind_bft")).
Proof. unfold windspeed_bft. rewrite get_property_eq. reflexivity. Qed.

Lemma lki_eq (self : Stookwijzer) :
  lki self = Ok (VStr (property_or_empty self "lki")).
Proof. unfold lki. rewrite get_property_eq. reflexivity. Qed.

Lemma forecast_of_bad_runtime (tz : tzenv) (self : Stookwijzer) (advice : bool)
  (runtime : string) :
  get_property self "model_runtime" = Ok runtime -> runtime <> "" ->
  strptime runtime = Raise ValueError ->
  get_forecast_array tz self advice = Raise ValueError.
Proof.
  rewrite get_property_eq. intros [= P] Hne Hs. apply truthy_true in Hne.
  rewrite get_forecast_array_eq, P, Hne, Hs. reflexivity.
Qed.

(** X15.  One bad reading fails the whole request.  With the
    transformation done and an advice present, a ["wind"] that is no
    numeral, or a ["model_runtime"] that is not in its format, makes the
    handler answer with status 500 for the [ValueError], although the
    advice, the alert and the other readings are there. *)
Theorem handler_fails_on_one_bad_reading (session : string -> option value)
  (tz : tzenv) (now : datetime) (latitude longitude x y : Float.float)
  (advies_0 : string) :
  async_transform_coordinates session (VFloat latitude) (VFloat longitude)
  = Ok (Some x, Some y) ->
  get_property (fetched (started session x y)) "advies_0" = Ok advies_0 ->
  advies_0 <> "" ->
  (forall wind,
     get_property (fetched (started session x y)) "wind" = Ok wind ->
     wind <> "" -> Float.of_string wind = Raise ValueError ->
     get_stookwijzer_data session tz now latitude longitude
     = Status 500 (Error ValueError))
  /\ (forall runtime ms,
        windspeed_ms (fetched (started session x y)) = Ok ms ->
        get_property (fetched (started session x y)) "model_runtime" = Ok runtime ->
        runtime <> "" -> strptime runtime = Raise ValueError ->
        get_stookwijzer_data session tz now latitude longitude
        = Status 500 (Error ValueError)).
Proof.
  intros Ht Ha Hne. rewrite get_property_eq in Ha. injection Ha as Ha.
  apply truthy_true in Hne.
  unfold get_stookwijzer_data. rewrite attempt_eq, Ht, Ha, Hne.
  set (sw := set_current _ _ _ _). unfold response_data.
  rewrite windspeed_bft_eq. cbn [bind].
  split.
  - intros wind Hw Hwne Hf.
    rewrite (windspeed_ms_propagates sw wind ValueError Hw Hwne Hf). reflexivity.
  - intros runtime ms Hms Hr Hrne Hs.
    change (windspeed_ms sw) with (windspeed_ms (fetched (started session x y))).
    rewrite Hms, lki_eq. cbn [bind]. unfold forecast_advice.
    rewrite (forecast_of_bad_runtime tz sw true runtime Hr Hrne Hs). reflexivity.
Qed.

(** The service reports no wind as [null]: the advice is there, the
    request fails. *)
Lemma handler_bad_reading_witness :
  get_stookwijzer_data
    (Samples.service Samples.planar
       (Samples.payload [("advies_0", VStr "1"); ("wind", VNone)]))
    Samples.utc_system Samples.noon Samples.latitude Samples.longitude
  = Status 500 (Error ValueError).
Proof.
  exact (proj1 (handler_fails_on_one_bad_reading
                  (Samples.service Samples.planar
                     (Samples.payload [("advies_0", VStr "1"); ("wind", VNone)]))
                  Samples.utc_system Samples.noon Samples.latitude Samples.longitude
                  (Float.of_decimal false 155000 0) (Float.of_decimal false 463000 0)
                  "1"
                  ltac:(vm_compute; reflexivity) ltac:(vm_compute; reflexivity)
                  ltac:(discriminate))
               "None" ltac:(vm_compute; reflexivity) ltac:(discriminate)
               ltac:(vm_compute; reflexivity)).
Defined.

(** ** Two edges *)

Lemma to_float_raises (v : value) (e : exn) :
  to_float v = Raise e ->
  e = ValueError \/ e = TypeError
  \/ (e = OverflowError /\ exists n, v = VInt n /\ Float.of_int n = Raise OverflowError).
Proof.
  destruct v as [|b|n|f|s|l|d]; cbn [to_float]; try (intros [= <-]; auto).
  - destruct b; discriminate.
  - intros H. assert (e = OverflowError) as ->.
    { unfold Float.of_int in H. destruct (binary_normalize _ _ _ _ _); congruence. }
    right. right. eauto.
  - intros H. left. eapply of_string_raises, H.
Qed.

(** X16.  The one exception [get_boundary_box] lets through is
    [OverflowError], and only for an [int] too large for a float -- in [x],
    or in [y] when [x] is a number: [except] names [ValueError] and
    [TypeError] alone.  The constructor then raises it too, and no
    instance is made. *)
Theorem get_boundary_box_lets_overflow_through
  (session : string -> option value) (x y : value) (e : exn) :
  get_boundary_box x y = Raise e ->
  e = OverflowError
  /\ ((exists n, x = VInt n /\ Float.of_int n = Raise OverflowError)
      \/ (exists n, y = VInt n /\ Float.of_int n = Raise OverflowError))
  /\ __init__ session x y = Raise OverflowError.
Proof.
  intros H. assert (H' := H). revert H.
  unfold get_boundary_box.
  destruct (to_float x) as [x0|ex] eqn:Fx; cbn [bind].
  - destruct (to_float y) as [y0|ey] eqn:Fy; cbn [bind]; [discriminate|].
    destruct (to_float_raises _ _ Fy) as [->|[->|(-> & n & -> & O)]];
      cbn [try_except existsb exn_eqb orb]; try discriminate.
    intros [= <-]. split; [reflexivity|]. split; [eauto|].
    unfold __init__. rewrite H'. reflexivity.
  - destruct (to_float_raises _ _ Fx) as [->|[->|(-> & n & -> & O)]];
      cbn [try_except existsb exn_eqb orb]; try discriminate.
    intros [= <-]. split; [reflexivity|]. split; [eauto|].
    unfold __init__. rewrite H'. reflexivity.
Qed.

Lemma get_boundary_box_overflow_witness :
  OverflowError = OverflowError
  /\ ((exists n, VInt (10 ^ 400) = VInt n /\ Float.of_int n = Raise OverflowError)
      \/ (exists n, VStr "abc" = VInt n /\ Float.of_int n = Raise OverflowError))
  /\ __init__ Samples.times_out (VInt (10 ^ 400)) (VStr "abc") = Raise OverflowError.
Proof.
  exact (get_boundary_box_lets_overflow_through Samples.times_out
           (VInt (10 ^ 400)) (VStr "abc") OverflowError
           ltac:(vm_compute; reflexivity)).
Defined.

(** X17.  The runtime is read on the clock of the system, not on
    Amsterdam's.  Where the system's zone keeps one offset, a server on UTC
    for one, the localised runtime is the parsed one moved by the
    difference between Amsterdam's offset and the system's, and the first
    timestamp of the forecast is two hours after that: the digits of
    ["model_runtime"] are kept exactly when the two offsets are equal. *)
Theorem runtime_is_read_in_the_system_zone (tz : tzenv) (self : Stookwijzer)
  (advice : bool) (runtime : string) (dt localdt last : datetime) (system : Z) :
  (forall u, local_utcoffset tz u = system) ->
  get_property self "model_runtime" = Ok runtime ->
  strptime runtime = Ok dt ->
  astimezone_amsterdam tz dt = Ok localdt ->
  add_hours localdt 24 = Ok last ->
  let amsterdam := amsterdam_utcoffset tz (wall dt - system * US_PER_SECOND) in
  localdt = mkdatetime (wall dt + (amsterdam - system) * US_PER_SECOND) (Some amsterdam)
  /\ (system = amsterdam <-> wall localdt = wall dt)
  /\ exists forecast,
       get_forecast_array tz self advice = Ok (Some forecast)
       /\ hd_error (timestamps forecast)
          = Some (Some (VStr (isoformat
                   (mkdatetime (wall dt + (amsterdam - system) * US_PER_SECOND
                                + 2 * 3600 * US_PER_SECOND)
                               (Some amsterdam))))).
Proof.
  intros Hz Hp Hs Ha H24 amsterdam.
  assert (localdt = mkdatetime (wall dt + (amsterdam - system) * US_PER_SECOND)
                               (Some amsterdam)) as E.
  { revert Ha. unfold astimezone_amsterdam, local_timezone, add_microseconds.
    rewrite (strptime_naive _ _ Hs).
    destruct (local_to_seconds tz _) as [timestamp|]; cbn [bind]; [|discriminate].
    rewrite Hz. destruct (_ && _); cbn [bind]; [|discriminate].
    destruct (in_bounds (wall dt + - system * US_PER_SECOND)); cbn [bind];
      [|discriminate].
    cbn [wall utcoffset].
    replace (wall dt + - system * US_PER_SECOND)
      with (wall dt - system * US_PER_SECOND) by lia.
    fold amsterdam.
    destruct (in_bounds _); cbn [bind wall]; [|discriminate].
    intros [= <-]. f_equal. lia. }
  split; [exact E|]. split.
  - rewrite E. cbn [wall]. unfold US_PER_SECOND. lia.
  - rewrite (forecast_in_range tz self advice runtime dt localdt last Hp Hs Ha H24).
    eexists. split; [reflexivity|].
    rewrite E. reflexivity.
Qed.

(** On a machine on UTC, midnight of the runtime is one o'clock in
    Amsterdam and the forecast starts at three. *)
Lemma runtime_zone_witness :
  let self := Samples.holding
                (Samples.payload [("model_runtime", VStr "01-01-2024 00:00")]) in
  let dt := mkdatetime 63839664000000000 None in
  let localdt := mkdatetime 63839667600000000 (Some 3600) in
  let amsterdam :=
    amsterdam_utcoffset Samples.utc_system (wall dt - 0 * US_PER_SECOND) in
  localdt = mkdatetime (wall dt + (amsterdam - 0) * US_PER_SECOND) (Some amsterdam)
  /\ (0 = amsterdam <-> wall localdt = wall dt)
  /\ exists forecast,
       get_forecast_array Samples.utc_system self true = Ok (Some forecast)
       /\ hd_error (timestamps forecast)
          = Some (Some (VStr (isoformat
                   (mkdatetime (wall dt + (amsterdam - 0) * US_PER_SECOND
                                + 2 * 3600 * US_PER_SECOND)
                               (Some amsterdam))))).
Proof.
  intros self dt localdt.
  apply (runtime_is_read_in_the_system_zone Samples.utc_system self true
           "01-01-2024 00:00" dt localdt
           (mkdatetime 63839754000000000 (Some 3600)) 0);
    [intros u; reflexivity|..]; vm_compute; reflexivity.
Defined.

(** ** Away from the edges of the calendar *)

Section Inside.
Variable tz : tzenv.
Hypothesis system_offsets : forall u, - 86400 < local_utcoffset tz u < 86400.
Hypothesis amsterdam_offsets : forall u, - 86400 < amsterdam_utcoffset tz u < 86400.

Lemma local_inside (u : Z) :
  86400 <= u < (MAXORDINAL - 1) * 86400 ->
  local tz u = Ok (u + local_utcoffset tz (u * US_PER_SECOND)).
Proof.
  intros Hu. unfold local.
  pose proof (system_offsets (u * US_PER_SECOND)) as Ho.
  assert (in_bounds ((u + local_utcoffset tz (u * US_PER_SECOND)) * US_PER_SECOND)
          = true) as ->; [|reflexivity].
  unfold in_bounds, MAXORDINAL, US_PER_DAY, US_PER_SECOND in *.
  apply andb_true_iff. split; [apply Z.leb_le|apply Z.ltb_lt]; lia.
Qed.

Ltac offsets :=
  repeat match goal with
         | |- context [local_utcoffset tz ?v] =>
             lazymatch goal with
             | _ : _ < local_utcoffset tz v < _ |- _ => fail
             | _ => pose proof (system_offsets v)
             end
         end.

Ltac inside :=
  match goal with
  | |- context [local tz ?u] =>
      rewrite (local_inside u)
        by (unfold max_fold_seconds, MAXORDINAL in *; offsets; lia);
      cbn [bind]
  end.

Lemma local_to_seconds_inside (t : Z) :
  3 * 86400 <= t < (MAXORDINAL - 3) * 86400 ->
  exists timestamp, local_to_seconds tz t = Ok timestamp.
Proof.
  intros Ht. unfold local_to_seconds. cbv zeta.
  inside. inside.
  destruct (_ =? t); cbn [bind andb].
  - inside. destruct (_ =? _); [eauto|].
    inside. destruct (_ =? t); eauto.
  - inside. destruct (_ =? t); eauto.
Qed.

Lemma in_bounds_true (w : Z) :
  0 <= w < MAXORDINAL * US_PER_DAY -> in_bounds w = true.
Proof.
  intros H. unfold in_bounds. apply andb_true_iff.
  split; [apply Z.leb_le|apply Z.ltb_lt]; lia.
Qed.

Lemma astimezone_inside (dt : datetime) :
  utcoffset dt = None ->
  3 * US_PER_DAY <= wall dt < (MAXORDINAL - 3) * US_PER_DAY ->
  exists localdt last,
    astimezone_amsterdam tz dt = Ok localdt /\ add_hours localdt 24 = Ok last.
Proof.
  intros N Hw. unfold astimezone_amsterdam, local_timezone. rewrite N.
  destruct (local_to_seconds_inside (wall dt / US_PER_SECOND)) as [timestamp ->].
  { unfold US_PER_DAY, US_PER_SECOND, MAXORDINAL in *.
    split; [apply Z.div_le_lower_bound|apply Z.div_lt_upper_bound]; lia. }
  cbn [bind].
  pose proof (system_offsets (timestamp * US_PER_SECOND)) as Ho.
  set (offset := local_utcoffset tz (timestamp * US_PER_SECOND)) in *.
  replace ((- 86400 <? offset) && (offset <? 86400)) with true
    by (symmetry; apply andb_true_iff;
        split; [apply Z.ltb_lt|apply Z.ltb_lt]; lia).
  cbn [bind]. unfold add_microseconds.
  rewrite in_bounds_true
    by (unfold US_PER_DAY, US_PER_SECOND, MAXORDINAL in *; lia).
  cbn [bind wall utcoffset].
  pose proof (amsterdam_offsets (wall dt + - offset * US_PER_SECOND)) as Ha.
  set (o := amsterdam_utcoffset tz (wall dt + - offset * US_PER_SECOND)) in *.
  rewrite in_bounds_true
    by (unfold US_PER_DAY, US_PER_SECOND, MAXORDINAL in *; lia).
  cbn [bind wall utcoffset].
  do 2 eexists. split; [reflexivity|].
  unfold add_hours, add_microseconds. cbn [wall utcoffset].
  rewrite in_bounds_true
    by (unfold US_PER_DAY, US_PER_SECOND, MAXORDINAL in *; lia).
  reflexivity.
Qed.

End Inside.

(** X18.  Away from the edges of the calendar the forecast is always
    there: for a runtime in the format that lies three days or more inside
    the years 1 to 9999, and zones whose offsets stay within 24 hours,
    [get_forecast_array] raises nothing and returns its 12 entries. *)
Theorem forecast_inside_the_calendar (tz : tzenv) (self : Stookwijzer)
  (advice : bool) (runtime : string) (dt : datetime) :
  (forall u, - 86400 < local_utcoffset tz u < 86400) ->
  (forall u, - 86400 < amsterdam_utcoffset tz u < 86400) ->
  get_property self "model_runtime" = Ok runtime ->
  strptime runtime = Ok dt ->
  3 * US_PER_DAY <= wall dt < (MAXORDINAL - 3) * US_PER_DAY ->
  exists forecast,
    get_forecast_array tz self advice = Ok (Some forecast)
    /\ List.length forecast = 12%nat.
Proof.
  intros Hs Ha Hp Hr Hw.
  destruct (astimezone_inside tz Hs Ha dt (strptime_naive _ _ Hr) Hw)
    as (localdt & last & A & L).
  rewrite (forecast_in_range tz self advice runtime dt localdt last Hp Hr A L).
  eexists. split; [reflexivity|]. reflexivity.
Qed.

Lemma forecast_inside_witness :
  exists forecast,
    get_forecast_array Samples.utc_system
      (Samples.holding (Samples.payload [("model_runtime", VStr "04-01-0001 00:00")]))
      false
    = Ok (Some forecast)
    /\ List.length forecast = 12%nat.
Proof.
  apply (forecast_inside_the_calendar Samples.utc_system
           (Samples.holding (Samples.payload [("model_runtime", VStr "04-01-0001 00:00")]))
           false "04-01-0001 00:00" (mkdatetime (3 * US_PER_DAY) None)).
  - intros u. cbn. lia.
  - intros u. cbn. lia.
  - vm_compute. reflexivity.
  - vm_compute. reflexivity.
  - vm_compute. split; [discriminate|reflexivity].
Defined.
